(** * Spaces image uploader: the paste/drop upload workflow of [src/main.ts]

    A shallow embedding of the plugin's paste handler, of [replaceText] and
    of [wrapFileDependingOnType], with the JavaScript string primitives they
    use, the MD5 digest that names the uploaded file, and a small model of
    the host editor.  JavaScript strings are modelled as [string]; a
    character stands for one code unit of the Latin-1 range. *)

From Stdlib Require Import ZArith Ascii String List Bool Lia.
From Stdlib.Strings Require Import Byte.
From stdpp Require Import gmap strings.

(** ** JavaScript string primitives *)

Module JsString.

(** The line feed and the double quote, which string literals here do not
    spell out. *)
Definition LF : ascii := "010"%char.
Definition nl : string := String LF EmptyString.
Definition dq : string := String (ascii_of_nat 34) EmptyString.

(** [s.length] *)
Definition length (s : string) : Z := Z.of_nat (String.length s).

Fixpoint drop (n : nat) (s : string) : string :=
  match n, s with
  | O, _ => s
  | S _, EmptyString => EmptyString
  | S n', String _ s' => drop n' s'
  end.

Fixpoint take (n : nat) (s : string) : string :=
  match n, s with
  | O, _ => EmptyString
  | S _, EmptyString => EmptyString
  | S n', String a s' => String a (take n' s')
  end.

(** [s.startsWith(t)] *)
Definition startsWith (s t : string) : bool := String.prefix t s.

(** [s.includes(t)]; also the truth of [s.match(/t.*/)] for a literal [t],
    since the pattern is not anchored and [.*] may match nothing. *)
Fixpoint includes (s t : string) : bool :=
  startsWith s t ||
  match s with
  | EmptyString => false
  | String _ s' => includes s' t
  end.

(** [s.indexOf(t)]: the least index at which [t] starts, or [-1]. *)
Fixpoint indexOf (s t : string) : Z :=
  if startsWith s t then 0%Z
  else match s with
       | EmptyString => (-1)%Z
       | String _ s' =>
           let r := indexOf s' t in
           if (r =? -1)%Z then (-1)%Z else (r + 1)%Z
       end.

(** [s.lastIndexOf(t)]: the greatest index at which [t] starts, or [-1]. *)
Fixpoint lastIndexOf (s t : string) : Z :=
  match s with
  | EmptyString => if startsWith s t then 0%Z else (-1)%Z
  | String _ s' =>
      let r := lastIndexOf s' t in
      if (r =? -1)%Z
      then (if startsWith s t then 0%Z else (-1)%Z)
      else (r + 1)%Z
  end.

(** [x >>> 0]: conversion to an unsigned 32-bit integer. *)
Definition ushr0 (x : Z) : Z := (x mod 2 ^ 32)%Z.

(** [s.slice(start)]: a negative [start] counts from the end, and an index
    beyond either end is clamped. *)
Definition slice (s : string) (start : Z) : string :=
  let len := length s in
  let from := if (start <? 0)%Z then Z.max (len + start) 0 else Z.min start len in
  drop (Z.to_nat from) s.

(** [s.split(c)] for a one-character separator; the result is never empty. *)
Fixpoint split (c : ascii) (s : string) : list string :=
  match s with
  | EmptyString => [EmptyString]
  | String a s' =>
      if Ascii.eqb a c then EmptyString :: split c s'
      else match split c s' with
           | l :: ls => String a l :: ls
           | [] => [String a EmptyString]
           end
  end.

(** White space and line terminators of the Latin-1 range, as
    [String.prototype.trim] strips them: TAB, LF, VT, FF, CR, SP, NBSP. *)
Definition isWhite (a : ascii) : bool :=
  match nat_of_ascii a with
  | 9%nat | 10%nat | 11%nat | 12%nat | 13%nat | 32%nat | 160%nat => true
  | _ => false
  end.

Fixpoint trimStart (s : string) : string :=
  match s with
  | EmptyString => EmptyString
  | String a s' => if isWhite a then trimStart s' else s
  end.

Fixpoint trimEnd (s : string) : string :=
  match s with
  | EmptyString => EmptyString
  | String a s' =>
      match trimEnd s' with
      | EmptyString => if isWhite a then EmptyString else String a EmptyString
      | r => String a r
      end
  end.

(** [s.trim()] *)
Definition trim (s : string) : string := trimEnd (trimStart s).

End JsString.

(** ** The MD5 digest (RFC 1321), as [crypto.createHash("md5")] computes it *)

Module Md5.
Local Open Scope Z_scope.

Definition add32 (x y : Z) : Z := (x + y) mod 2 ^ 32.
Definition not32 (x : Z) : Z := Z.lxor x 4294967295.
Definition rotl32 (x n : Z) : Z :=
  Z.lor (Z.shiftl x n mod 2 ^ 32) (Z.shiftr x (32 - n)).

Definition K : list Z :=
  [ 3614090360; 3905402710; 606105819; 3250441966;
    4118548399; 1200080426; 2821735955; 4249261313;
    1770035416; 2336552879; 4294925233; 2304563134;
    1804603682; 4254626195; 2792965006; 1236535329;
    4129170786; 3225465664; 643717713; 3921069994;
    3593408605; 38016083; 3634488961; 3889429448;
    568446438; 3275163606; 4107603335; 1163531501;
    2850285829; 4243563512; 1735328473; 2368359562;
    4294588738; 2272392833; 1839030562; 4259657740;
    2763975236; 1272893353; 4139469664; 3200236656;
    681279174; 3936430074; 3572445317; 76029189;
    3654602809; 3873151461; 530742520; 3299628645;
    4096336452; 1126891415; 2878612391; 4237533241;
    1700485571; 2399980690; 4293915773; 2240044497;
    1873313359; 4264355552; 2734768916; 1309151649;
    4149444226; 3174756917; 718787259; 3951481745 ].

Definition shifts : list Z :=
  [ 7; 12; 17; 22; 7; 12; 17; 22; 7; 12; 17; 22; 7; 12; 17; 22;
    5; 9; 14; 20; 5; 9; 14; 20; 5; 9; 14; 20; 5; 9; 14; 20;
    4; 11; 16; 23; 4; 11; 16; 23; 4; 11; 16; 23; 4; 11; 16; 23;
    6; 10; 15; 21; 6; 10; 15; 21; 6; 10; 15; 21; 6; 10; 15; 21 ].

Definition le64 (n : Z) : list Z :=
  map (fun i => Z.shiftr n (8 * i) mod 256) [0; 1; 2; 3; 4; 5; 6; 7].

(** A one bit, zeros up to 56 modulo 64, then the bit length. *)
Definition pad (msg : list Z) : list Z :=
  let len := Z.of_nat (List.length msg) in
  msg ++ 128 :: repeat 0 (Z.to_nat ((55 - len) mod 64)) ++ le64 (8 * len).

(** Little-endian 32-bit words of a byte sequence. *)
Fixpoint words (n : nat) (bs : list Z) : list Z :=
  match n, bs with
  | S n', b0 :: b1 :: b2 :: b3 :: rest =>
      (b0 + 256 * b1 + 65536 * b2 + 16777216 * b3) :: words n' rest
  | _, _ => []
  end.

Definition State : Type := Z * Z * Z * Z.

Definition round (M : list Z) (st : State) (i : Z) : State :=
  let '(a, b, c, d) := st in
  let '(f, g) :=
    if i <? 16 then (Z.lor (Z.land b c) (Z.land (not32 b) d), i)
    else if i <? 32 then (Z.lor (Z.land d b) (Z.land (not32 d) c), (5 * i + 1) mod 16)
    else if i <? 48 then (Z.lxor (Z.lxor b c) d, (3 * i + 5) mod 16)
    else (Z.lxor c (Z.lor b (not32 d)), (7 * i) mod 16) in
  let f' := add32 (add32 (add32 f a) (nth (Z.to_nat i) K 0)) (nth (Z.to_nat g) M 0) in
  (d, add32 b (rotl32 f' (nth (Z.to_nat i) shifts 0)), b, c).

Definition block (st : State) (chunk : list Z) : State :=
  let M := words 16 chunk in
  let '(a, b, c, d) := st in
  let '(a', b', c', d') := fold_left (round M) (map Z.of_nat (seq 0 64)) st in
  (add32 a a', add32 b b', add32 c c', add32 d d').

Fixpoint blocks (n : nat) (st : State) (bs : list Z) : State :=
  match n with
  | O => st
  | S n' => blocks n' (block st (firstn 64 bs)) (skipn 64 bs)
  end.

Definition init : State := (1732584193, 4023233417, 2562383102, 271733878).

Definition hexDigit (n : Z) : ascii :=
  if n <? 10 then ascii_of_nat (48 + Z.to_nat n) else ascii_of_nat (87 + Z.to_nat n).

Definition hexByte (b : Z) : string :=
  String (hexDigit (b / 16)) (String (hexDigit (b mod 16)) EmptyString).

Definition hexWord (w : Z) : string :=
  hexByte (w mod 256) +:+ hexByte (Z.shiftr w 8 mod 256) +:+
  hexByte (Z.shiftr w 16 mod 256) +:+ hexByte (Z.shiftr w 24 mod 256).

(** [createHash("md5").update(bytes).digest("hex")] *)
Definition digest (bytes : list byte) : string :=
  let padded := pad (map (fun b => Z.of_N (Byte.to_N b)) bytes) in
  let '(a, b, c, d) := blocks (List.length padded / 64) init padded in
  hexWord a +:+ hexWord b +:+ hexWord c +:+ hexWord d.

End Md5.

(** ** JavaScript values, as frontmatter fields hold them *)

Module Js.

(** The code only tests these values for truth and converts them to
    strings.  A number, whole or fractional, finite or not, is therefore
    kept as the two things the code can see of it: whether it is truthy
    (it is not for zero and [NaN]) and the string it converts to, in
    whatever notation JavaScript prints it.  An object or array, always
    truthy, is kept as the string it converts to. *)
Inductive Value : Type :=
| Undefined
| Null
| Bool (b : bool)
| Number (nonzero : bool) (repr : string)
| Str (s : string)
| Object (repr : string).

(** [ToBoolean] *)
Definition truthy (v : Value) : bool :=
  match v with
  | Undefined | Null => false
  | Bool b => b
  | Number nonzero _ => nonzero
  | Str s => negb (String.eqb s "")
  | Object _ => true
  end.

(** [ToString], as [+] and template literals apply it. *)
Definition toString (v : Value) : string :=
  match v with
  | Undefined => "undefined"
  | Null => "null"
  | Bool true => "true"
  | Bool false => "false"
  | Number _ repr => repr
  | Str s => s
  | Object repr => repr
  end.

(** [a ? a : b] *)
Definition orElse (a b : Value) : Value := if truthy a then a else b.

(** The outcome of a call that may throw, or of a promise that may reject
    ([message] is the error's [message]). *)
Inductive Result (A : Type) : Type :=
| Ok (a : A)
| Throw (message : string).
Arguments Ok {A} a.
Arguments Throw {A} message.

End Js.

(** ** The host editor

    The document is a string, the selection a pair of offsets into it.
    Positions given as line and column are converted at the interface, as
    the host does. *)

Module Host.
Import JsString.

Record EditorPosition : Type := { line : Z; ch : Z }.

Record Editor : Type := { doc : string; selFrom : nat; selTo : nat }.

Definition getValue (ed : Editor) : string := doc ed.

(** Offset of the start of line [n] among [lines]. *)
Fixpoint lineStart (lines : list string) (n : nat) : nat :=
  match n, lines with
  | O, _ => 0
  | S _, [] => 0
  | S n', l :: rest => String.length l + 1 + lineStart rest n'
  end.

Definition posToOffset (ed : Editor) (pos : EditorPosition) : nat :=
  Nat.min (lineStart (split LF (doc ed)) (Z.to_nat (line pos)) + Z.to_nat (ch pos))
          (String.length (doc ed)).

Definition setCursor (ed : Editor) (pos : EditorPosition) : Editor :=
  let off := posToOffset ed pos in
  {| doc := doc ed; selFrom := off; selTo := off |}.

(** Where an offset lands once [from, to) is replaced by [n] characters: an
    offset up to [from] stays, one inside the span falls back to [from], one
    from [to] on moves with the text. *)
Definition mapPos (from to n p : nat) : nat :=
  if p <=? from then p
  else if p <? to then from
  else p - (to - from) + n.

Definition replaceRange (ed : Editor) (replacement : string)
    (from to : EditorPosition) : Editor :=
  let a := posToOffset ed from in
  let b := posToOffset ed to in
  let n := String.length replacement in
  {| doc := take a (doc ed) +:+ replacement +:+ drop b (doc ed);
     selFrom := mapPos a b n (selFrom ed);
     selTo := mapPos a b n (selTo ed) |}.

(** The selection is replaced and the cursor put behind the new text. *)
Definition replaceSelection (ed : Editor) (text : string) : Editor :=
  let a := Nat.min (selFrom ed) (selTo ed) in
  let b := Nat.max (selFrom ed) (selTo ed) in
  let c := a + String.length text in
  {| doc := take a (doc ed) +:+ text +:+ drop b (doc ed);
     selFrom := c; selTo := c |}.

End Host.

(** ** The plugin *)

Import JsString.
Import Host.

Module Settings.
(** [SpacesUploaderSettings] *)
Record t : Type := {
  accessKey : string;
  secretKey : string;
  region : string;
  bucket : string;
  folder : string;
  imageUrlPath : string;
  uploadOnDrag : bool;
  localUpload : bool;
  localUploadFolder : string;
  endpoint : string;
  forcePathStyle : bool;
  uploadVideo : bool;
  uploadAudio : bool;
  uploadPdf : bool;
  public : bool
}.
End Settings.

Definition DEFAULT_SETTINGS : Settings.t :=
  {| Settings.accessKey := "";
     Settings.secretKey := "";
     Settings.region := "";
     Settings.bucket := "";
     Settings.folder := "";
     Settings.imageUrlPath := "";
     Settings.uploadOnDrag := true;
     Settings.localUpload := false;
     Settings.localUploadFolder := "";
     Settings.endpoint := "";
     Settings.forcePathStyle := false;
     Settings.uploadVideo := false;
     Settings.uploadAudio := false;
     Settings.uploadPdf := false;
     Settings.public := true |}.

Module File.
(** A [File] of the event's transfer payload. *)
Record t : Type := { name : string; type : string; bytes : list byte }.
End File.

Module Event.
(** A [ClipboardEvent] or [DragEvent]: its [type] and the files of its
    [clipboardData] or [dataTransfer] ([None] when that is missing). *)
Record t : Type := { type : string; files : option (list File.t) }.
End Event.

(** The frontmatter of the active note, [undefined] when the note has none. *)
Abbreviation Frontmatter := (option (gmap string Js.Value)).

(** [fm && fm.key] *)
Definition fmField (fm : Frontmatter) (key : string) : Js.Value :=
  match fm with
  | None => Js.Undefined
  | Some m => default Js.Undefined (m !! key)
  end.

Definition fmUploadOnDrag (fm : Frontmatter) : Js.Value := fmField fm "uploadOnDrag".
Definition fmLocalUpload (fm : Frontmatter) : Js.Value := fmField fm "localUpload".
Definition fmUploadVideo (fm : Frontmatter) : Js.Value := fmField fm "uploadVideo".
Definition fmUploadAudio (fm : Frontmatter) : Js.Value := fmField fm "uploadAudio".
Definition fmUploadPdf (fm : Frontmatter) : Js.Value := fmField fm "uploadPdf".

(** [fm ? fm.localUploadFolder : null] *)
Definition fmUploadFolder (fm : Frontmatter) : Js.Value :=
  match fm with
  | None => Js.Null
  | Some m => default Js.Undefined (m !! "localUploadFolder")
  end.

Definition localUpload (settings : Settings.t) (fm : Frontmatter) : Js.Value :=
  Js.orElse (fmLocalUpload fm) (Js.Bool (Settings.localUpload settings)).

Definition uploadVideo (settings : Settings.t) (fm : Frontmatter) : Js.Value :=
  Js.orElse (fmUploadVideo fm) (Js.Bool (Settings.uploadVideo settings)).

Definition uploadAudio (settings : Settings.t) (fm : Frontmatter) : Js.Value :=
  Js.orElse (fmUploadAudio fm) (Js.Bool (Settings.uploadAudio settings)).

Definition uploadPdf (settings : Settings.t) (fm : Frontmatter) : Js.Value :=
  Js.orElse (fmUploadPdf fm) (Js.Bool (Settings.uploadPdf settings)).

(** The [folder] of the upload branch, and the key built from it. *)
Definition folder (settings : Settings.t) (fm : Frontmatter) : Js.Value :=
  Js.orElse (fmUploadFolder fm) (Js.Str (Settings.folder settings)).

(** [localUploadFolder] of the local branch. *)
Definition localUploadFolder (settings : Settings.t) (fm : Frontmatter) : Js.Value :=
  Js.orElse (fmUploadFolder fm) (Js.Str (Settings.localUploadFolder settings)).

(** [dir ? dir + "/" + newFileName : newFileName] *)
Definition underFolder (dir : Js.Value) (newFileName : string) : string :=
  if Js.truthy dir then Js.toString dir +:+ "/" +:+ newFileName else newFileName.

Definition key (settings : Settings.t) (fm : Frontmatter) (newFileName : string) : string :=
  underFolder (folder settings fm) newFileName.

Definition localUploadPath (settings : Settings.t) (fm : Frontmatter)
    (newFileName : string) : string :=
  underFolder (localUploadFolder settings fm) newFileName.

(** [file.name.slice(((file?.name.lastIndexOf(".") - 1) >>> 0) + 2)] *)
Definition extensionOf (name : string) : string :=
  slice name (ushr0 (lastIndexOf name "." - 1) + 2).

Definition newFileName (file : File.t) : string :=
  Md5.digest (File.bytes file) +:+ "." +:+ extensionOf (File.name file).

Definition pastePlaceText (newFileName : string) : string :=
  "![uploading...](" +:+ newFileName +:+ ")" +:+ nl.

(** The media kind the handler settles on; the empty string when none. *)
Definition thisType (file : option File.t)
    (uploadVideo uploadAudio uploadPdf : Js.Value) : string :=
  let matches (pattern : string) :=
    match file with
    | Some f => includes (File.type f) pattern
    | None => false
    end in
  if matches "video" && Js.truthy uploadVideo then "video"
  else if matches "audio" && Js.truthy uploadAudio then "audio"
  else if matches "application/pdf" && Js.truthy uploadPdf then "pdf"
  else if matches "image" then "image"
  else "".

Definition wrapFileDependingOnType (location type localBase : string)
    : Js.Result string :=
  let srcPrefix :=
    if Js.truthy (Js.Str localBase) then "file://" +:+ localBase +:+ "/" else "" in
  if String.eqb type "image" then
    Js.Ok ("![image](" +:+ location +:+ ")")
  else if String.eqb type "video" then
    Js.Ok ("<video src=" +:+ dq +:+ srcPrefix +:+ location +:+ dq +:+ " controls />")
  else if String.eqb type "audio" then
    Js.Ok ("<audio src=" +:+ dq +:+ srcPrefix +:+ location +:+ dq +:+ " controls />")
  else if String.eqb type "pdf" then
    if Js.truthy (Js.Str localBase) then
      Js.Throw "PDFs cannot be embedded in local mode"
    else
      Js.Ok ("<iframe frameborder=0 border=0 width=100% height=800" +:+ nl +:+
             String "009" ("src=" +:+ dq +:+ "https://docs.google.com/viewer?url=" +:+
             location +:+ "?raw=true" +:+ dq +:+ ">" +:+ nl +:+ "</iframe>"))
  else Js.Throw "Unknown file type".

(** The loop of [replaceText]: the first line, with its index [i], in which
    [target] occurs, and the column [ch] of its first occurrence there. *)
Fixpoint findLine (lines : list string) (target : string) (i : Z)
    : option EditorPosition :=
  match lines with
  | [] => None
  | l :: rest =>
      let ch := indexOf l target in
      if negb (ch =? -1)%Z then Some {| line := i; ch := ch |}
      else findLine rest target (i + 1)%Z
  end.

Definition replaceText (editor : Editor) (target replacement : string) : Editor :=
  let target := trim target in
  let lines := split LF (getValue editor) in
  match findLine lines target 0%Z with
  | Some from =>
      let to := {| line := line from; ch := (ch from + JsString.length target)%Z |} in
      replaceRange (setCursor editor from) replacement from to
  | None => editor
  end.

(** ** The handler and its effects *)

(** [PutObjectCommand] input. *)
Record PutObject : Type := {
  Bucket : string;
  Key : string;
  Body : list byte;
  ContentType : option string;
  ACL : string
}.

(** Asynchronous operations of the collaborators. *)
Inductive IoRequest : Type :=
| ReadArrayBuffer (file : string)
| S3Send (command : PutObject)
| Mkdir (path : string)
| WriteBinary (path : string) (data : list byte).

(** What the handler does, in the order it does it.  [Suspend io] is the
    start of [io] together with the return of control to the host's event
    loop until [io] settles. *)
Inductive Effect : Type :=
| PreventDefault
| ReplaceSelection (text : string)
| ReplaceText (target replacement : string)
| NewNotice (message : string)
| ConsoleError (message : string)
| ConsoleLog (message : string)
| Suspend (io : IoRequest)
| Unhandled (message : string).

(** How the collaborators answer: [None] for a promise that fulfils,
    [Some message] for one that rejects; the base path when the vault adapter
    is a [FileSystemAdapter]; and what the user does to the buffer while the
    handler is suspended. *)
Record Outcomes : Type := {
  sendOutcome : option string;
  mkdirOutcome : option string;
  writeOutcome : option string;
  adapterBasePath : option string;
  whileSuspended : IoRequest -> Editor -> Editor
}.

Record World : Type := {
  editor : Editor;
  defaultPrevented : bool;
  notices : list string;
  log : list Effect
}.

Definition Action : Type := World -> World.

Definition seqA (a b : Action) : Action := fun w => b (a w).
Declare Scope action_scope.
Delimit Scope action_scope with act.
Bind Scope action_scope with Action.
Notation "a ;; b" := (seqA a b)
  (at level 100, b at level 200, right associativity) : action_scope.
Local Open Scope action_scope.

Definition skip : Action := fun w => w.

Definition logged (e : Effect) (w : World) : World :=
  {| editor := editor w; defaultPrevented := defaultPrevented w;
     notices := notices w; log := log w ++ [e] |}.

Definition onEditor (f : Editor -> Editor) (w : World) : World :=
  {| editor := f (editor w); defaultPrevented := defaultPrevented w;
     notices := notices w; log := log w |}.

Definition preventDefault : Action := fun w =>
  logged PreventDefault
    {| editor := editor w; defaultPrevented := true;
       notices := notices w; log := log w |}.

Definition suspend (o : Outcomes) (io : IoRequest) : Action := fun w =>
  onEditor (whileSuspended o io) (logged (Suspend io) w).

Definition doReplaceSelection (text : string) : Action := fun w =>
  onEditor (fun ed => replaceSelection ed text) (logged (ReplaceSelection text) w).

Definition doReplaceText (target replacement : string) : Action := fun w =>
  onEditor (fun ed => replaceText ed target replacement)
           (logged (ReplaceText target replacement) w).

Definition newNotice (message : string) : Action := fun w =>
  logged (NewNotice message)
    {| editor := editor w; defaultPrevented := defaultPrevented w;
       notices := notices w ++ [message]; log := log w |}.

Definition consoleError (message : string) : Action := logged (ConsoleError message).
Definition consoleLog (message : string) : Action := logged (ConsoleLog message).
Definition unhandled (message : string) : Action := logged (Unhandled message).

(** The [.then] callbacks: markup, then the placeholder's replacement and
    the notice; a throw of the markup step removes the placeholder and
    rejects the chain with the error's message. *)
Definition onFulfilled (location type localBase placeText done : string)
    (onRejected : string -> Action) : Action :=
  match wrapFileDependingOnType location type localBase with
  | Js.Throw message => doReplaceText placeText "" ;; onRejected message
  | Js.Ok imgMarkdownText =>
      doReplaceText placeText imgMarkdownText ;; newNotice done
  end.

(** [new S3Client({ region, credentials, endpoint, forcePathStyle })]: the
    constructor of the client throws when the region is empty. *)
Definition newS3Client (settings : Settings.t) : Js.Result unit :=
  if Js.truthy (Js.Str (Settings.region settings)) then Js.Ok tt
  else Js.Throw "Region is missing".

(** The branch [if (!localUpload)].  The client is built outside any
    [try] or [catch]: when its constructor throws, the handler's promise
    rejects and nobody handles it. *)
Definition uploadRemote (o : Outcomes) (settings : Settings.t) (fm : Frontmatter)
    (file : File.t) (type placeText : string) : Action :=
  let key := key settings fm (newFileName file) in
  let onRejected (message : string) : Action :=
    consoleError message ;;
    newNotice ("Error uploading image to S3 bucket " +:+ Settings.bucket settings
               +:+ ": " +:+ message) in
  let command :=
    {| Bucket := Settings.bucket settings;
       Key := key;
       Body := File.bytes file;
       ContentType := if Js.truthy (Js.Str (File.type file))
                      then Some (File.type file) else None;
       ACL := if Settings.public settings then "public-read" else "private" |} in
  match newS3Client settings with
  | Js.Throw message => unhandled message
  | Js.Ok _ =>
      suspend o (ReadArrayBuffer (File.name file)) ;;
      suspend o (S3Send command) ;;
      match sendOutcome o with
      | None =>
          onFulfilled (Settings.imageUrlPath settings +:+ key) type "" placeText
            ("Image uploaded to S3 bucket: " +:+ Settings.bucket settings) onRejected
      | Some message => onRejected message
      end
  end.

(** The branch [else]: local upload. *)
Definition uploadLocal (o : Outcomes) (settings : Settings.t) (fm : Frontmatter)
    (file : File.t) (type placeText : string) : Action :=
  let dir := Js.toString (localUploadFolder settings fm) in
  let path := localUploadPath settings fm (newFileName file) in
  let onRejected (message : string) : Action :=
    consoleLog message ;;
    newNotice ("Error uploading image to " +:+ dir +:+ " folder: " +:+ message) in
  suspend o (Mkdir dir) ;;
  match mkdirOutcome o with
  | Some message => unhandled message
  | None =>
      suspend o (WriteBinary path (File.bytes file)) ;;
      match writeOutcome o with
      | None =>
          let basePath := default "" (adapterBasePath o) in
          onFulfilled path type basePath placeText
            ("Image uploaded to " +:+ dir +:+ " folder") onRejected
      | Some message => onRejected message
      end
  end.

(** The body of [if (thisType && file)]. *)
Definition upload (o : Outcomes) (settings : Settings.t) (fm : Frontmatter)
    (file : File.t) (type : string) : Action :=
  let placeText := pastePlaceText (newFileName file) in
  preventDefault ;;
  suspend o (ReadArrayBuffer (File.name file)) ;;
  doReplaceSelection placeText ;;
  if negb (Js.truthy (localUpload settings fm))
  then uploadRemote o settings fm file type placeText
  else uploadLocal o settings fm file type placeText.

(** [files[0]] of an optional file list. *)
Definition firstFile (files : option (list File.t)) : option File.t :=
  match files with
  | Some (f :: _) => Some f
  | _ => None
  end.

(** The head of the handler, up to the choice of the media kind: the file
    and kind of a claimed event, [None] for an event the handler leaves to
    the host.  [noteFile] is the name of the active file, if there is one. *)
Definition intake (settings : Settings.t) (noteFile : option string)
    (fm : Frontmatter) (ev : Event.t) (w : World) : option (File.t * string) :=
  if defaultPrevented w then None
  else match noteFile with
  | None => None
  | Some noteName =>
      if negb (Js.truthy (Js.Str noteName)) then None
      else
        let picked : option (option File.t) :=
          if String.eqb (Event.type ev) "paste" then Some (firstFile (Event.files ev))
          else if String.eqb (Event.type ev) "drop" then
            if negb (Settings.uploadOnDrag settings)
               && negb (Js.truthy (fmUploadOnDrag fm))
            then None
            else Some (firstFile (Event.files ev))
          else Some None in
        match picked with
        | None => None
        | Some file =>
            let type := thisType file (uploadVideo settings fm)
                          (uploadAudio settings fm) (uploadPdf settings fm) in
            match file with
            | Some f => if Js.truthy (Js.Str type) then Some (f, type) else None
            | None => None
            end
        end
  end.

Definition pasteHandler (o : Outcomes) (settings : Settings.t)
    (noteFile : option string) (fm : Frontmatter) (ev : Event.t) : Action :=
  fun w =>
    match intake settings noteFile fm ev w with
    | Some (file, type) => upload o settings fm file type w
    | None => w
    end.

(** ** The settings tab, the settings object and the password hider *)

(** The last character of a string. *)
Fixpoint lastChar (s : string) : option ascii :=
  match s with
  | EmptyString => None
  | String a EmptyString => Some a
  | String _ rest => lastChar rest
  end.

(** [value.match(/https?:\/\//) ? value : "https://" + value]: the pattern
    is not anchored, so a scheme anywhere in the value counts. *)
Definition forceScheme (value : string) : string :=
  if includes value "http://" || includes value "https://" then value
  else "https://" +:+ value.

(** [value.replace(/([^\/])$/, "$1/")]: a slash is put behind a last
    character that is not a slash; the empty string has none. *)
Definition forceTrailingSlash (value : string) : string :=
  match lastChar value with
  | Some c => if Ascii.eqb c "/" then value else value +:+ "/"
  | None => value
  end.

(** What the [onChange] handler of the endpoint field stores. *)
Definition endpointOnChange (value : string) : string :=
  trim (forceTrailingSlash (forceScheme value)).

(** The [onChange] handlers of the endpoint and of the bucket folder, as
    updates of the settings. *)
Definition setEndpoint (settings : Settings.t) (value : string) : Settings.t :=
  {| Settings.accessKey := Settings.accessKey settings;
     Settings.secretKey := Settings.secretKey settings;
     Settings.region := Settings.region settings;
     Settings.bucket := Settings.bucket settings;
     Settings.folder := Settings.folder settings;
     Settings.imageUrlPath := Settings.imageUrlPath settings;
     Settings.uploadOnDrag := Settings.uploadOnDrag settings;
     Settings.localUpload := Settings.localUpload settings;
     Settings.localUploadFolder := Settings.localUploadFolder settings;
     Settings.endpoint := endpointOnChange value;
     Settings.forcePathStyle := Settings.forcePathStyle settings;
     Settings.uploadVideo := Settings.uploadVideo settings;
     Settings.uploadAudio := Settings.uploadAudio settings;
     Settings.uploadPdf := Settings.uploadPdf settings;
     Settings.public := Settings.public settings |}.

Definition setFolder (settings : Settings.t) (value : string) : Settings.t :=
  {| Settings.accessKey := Settings.accessKey settings;
     Settings.secretKey := Settings.secretKey settings;
     Settings.region := Settings.region settings;
     Settings.bucket := Settings.bucket settings;
     Settings.folder := trim value;
     Settings.imageUrlPath := Settings.imageUrlPath settings;
     Settings.uploadOnDrag := Settings.uploadOnDrag settings;
     Settings.localUpload := Settings.localUpload settings;
     Settings.localUploadFolder := Settings.localUploadFolder settings;
     Settings.endpoint := Settings.endpoint settings;
     Settings.forcePathStyle := Settings.forcePathStyle settings;
     Settings.uploadVideo := Settings.uploadVideo settings;
     Settings.uploadAudio := Settings.uploadAudio settings;
     Settings.uploadPdf := Settings.uploadPdf settings;
     Settings.public := Settings.public settings |}.

(** The settings as the object that [saveData] receives and [loadData]
    gives back. *)
Definition settingsObject (settings : Settings.t) : gmap string Js.Value :=
  list_to_map
    [ ("accessKey", Js.Str (Settings.accessKey settings));
      ("secretKey", Js.Str (Settings.secretKey settings));
      ("region", Js.Str (Settings.region settings));
      ("bucket", Js.Str (Settings.bucket settings));
      ("folder", Js.Str (Settings.folder settings));
      ("imageUrlPath", Js.Str (Settings.imageUrlPath settings));
      ("uploadOnDrag", Js.Bool (Settings.uploadOnDrag settings));
      ("localUpload", Js.Bool (Settings.localUpload settings));
      ("localUploadFolder", Js.Str (Settings.localUploadFolder settings));
      ("endpoint", Js.Str (Settings.endpoint settings));
      ("forcePathStyle", Js.Bool (Settings.forcePathStyle settings));
      ("uploadVideo", Js.Bool (Settings.uploadVideo settings));
      ("uploadAudio", Js.Bool (Settings.uploadAudio settings));
      ("uploadPdf", Js.Bool (Settings.uploadPdf settings));
      ("public", Js.Bool (Settings.public settings)) ].

(** The names of the settings. *)
Definition settingNames : list string :=
  [ "accessKey"; "secretKey"; "region"; "bucket"; "folder"; "imageUrlPath";
    "uploadOnDrag"; "localUpload"; "localUploadFolder"; "endpoint";
    "forcePathStyle"; "uploadVideo"; "uploadAudio"; "uploadPdf"; "public" ].

(** [loadSettings]: [Object.assign({}, DEFAULT_SETTINGS, await this.loadData())];
    [data] is [None] when nothing was saved, and a later source overwrites
    an earlier one. *)
Definition loadSettings (data : option (gmap string Js.Value))
    : gmap string Js.Value :=
  default ∅ data ∪ settingsObject DEFAULT_SETTINGS.

(** The input element of a secret and the icon of the hider before it. *)
Record SecretInput : Type := {
  typeAttribute : option string;
  hiderIcon : option string;
  focused : bool
}.

(** The click listener of the hider. *)
Definition hiderClick (el : SecretInput) : SecretInput :=
  let isText :=
    match typeAttribute el with
    | Some t => String.eqb t "text"
    | None => false
    end in
  if isText
  then {| typeAttribute := Some "password"; hiderIcon := Some "eye-off"; focused := true |}
  else {| typeAttribute := Some "text"; hiderIcon := Some "eye"; focused := true |}.

(** [wrapTextWithPasswordHide]; [inserted] tells whether
    [insertAdjacentElement] gave the hider element. *)
Definition wrapTextWithPasswordHide (inserted : bool) (el : SecretInput) : SecretInput :=
  if negb inserted then el
  else {| typeAttribute := Some "password"; hiderIcon := Some "eye-off";
          focused := focused el |}.

(** [n] clicks on the hider. *)
Fixpoint clicks (n : nat) (el : SecretInput) : SecretInput :=
  match n with
  | O => el
  | S n' => hiderClick (clicks n' el)
  end.

(** Whether every character of a string satisfies a test. *)
Fixpoint allChars (p : ascii -> bool) (s : string) : bool :=
  match s with
  | EmptyString => true
  | String a rest => p a && allChars p rest
  end.

(** The digits of lowercase hexadecimal. *)
Definition isLowerHex (a : ascii) : bool :=
  existsb (Ascii.eqb a) (list_ascii_of_string "0123456789abcdef").

(** A user who leaves the buffer alone while the handler is suspended. *)
Definition idle (o : Outcomes) : Prop :=
  forall (io : IoRequest) (ed : Editor), whileSuspended o io ed = ed.

(** The kinds of operation a trace may hold. *)
Definition isVaultOperation (e : Effect) : bool :=
  match e with
  | Suspend (Mkdir _) | Suspend (WriteBinary _ _) => true
  | _ => false
  end.

Definition isMkdir (e : Effect) : bool :=
  match e with
  | Suspend (Mkdir _) => true
  | _ => false
  end.

Definition isWriteBinary (e : Effect) : bool :=
  match e with
  | Suspend (WriteBinary _ _) => true
  | _ => false
  end.

Definition isBucketOperation (e : Effect) : bool :=
  match e with
  | Suspend (S3Send _) => true
  | _ => false
  end.

(** An entry that starts the send or the write. *)
Definition reachesSink (e : Effect) : bool :=
  isBucketOperation e || isWriteBinary e.

(** ** Definitions that follow the specification's words

    They are compared with the code's definitions in the theorems below. *)

Inductive MediaKind : Type := Video | Audio | Pdf | Image.

Definition kindName (k : MediaKind) : string :=
  match k with
  | Video => "video"
  | Audio => "audio"
  | Pdf => "pdf"
  | Image => "image"
  end.

(** The kinds in their order of precedence, each with whether the declared
    MIME type matches its pattern and its enable flag is on. *)
Definition kindRules (mime : string) (video audio pdf : bool)
    : list (MediaKind * bool) :=
  [ (Video, includes mime "video" && video);
    (Audio, includes mime "audio" && audio);
    (Pdf, includes mime "application/pdf" && pdf);
    (Image, includes mime "image") ].

(** The first matching enabled kind. *)
Definition firstEnabledKind (mime : string) (video audio pdf : bool)
    : option MediaKind :=
  fst <$> List.find snd (kindRules mime video audio pdf).

(** The substring after the last dot of a name, [None] when it has no dot. *)
Fixpoint afterLastDot (name : string) : option string :=
  match name with
  | EmptyString => None
  | String a rest =>
      match afterLastDot rest with
      | Some e => Some e
      | None => if Ascii.eqb a "." then Some rest else None
      end
  end.

(** The content key as the specification words it: the bare digest for a
    name without a dot, else the digest, a dot and the substring after the
    last dot. *)
Definition specContentKey (digest name : string) : string :=
  match afterLastDot name with
  | None => digest
  | Some e => digest +:+ "." +:+ e
  end.

(** The extension the key really carries: the substring after the last dot
    when that dot is not the first character of the name, else nothing. *)
Definition dottedExtension (name : string) : string :=
  match afterLastDot name with
  | None => ""
  | Some e => if String.length e + 1 =? String.length name then "" else e
  end.

(** The placeholder marker, without the newline written behind it. *)
Definition placeholder (contentKey : string) : string :=
  "![uploading...](" +:+ contentKey +:+ ")".

(** Whether [text] is inserted at the selection before the handler is
    suspended for the first time. *)
Fixpoint insertedBeforeSuspension (text : string) (trace : list Effect) : bool :=
  match trace with
  | [] => false
  | ReplaceSelection t :: _ => String.eqb t text
  | Suspend _ :: _ => false
  | _ :: rest => insertedBeforeSuspension text rest
  end.

(** What lets an event reach classification: it is not handled yet, a note
    with a name is active, and the event is a paste, or a drop while upload
    on drag is enabled globally or by the note. *)
Definition reachesClassification (settings : Settings.t) (noteFile : option string)
    (fm : Frontmatter) (eventType : string) (w : World) : bool :=
  negb (defaultPrevented w) &&
  match noteFile with
  | Some noteName => Js.truthy (Js.Str noteName)
  | None => false
  end &&
  (String.eqb eventType "paste" ||
   String.eqb eventType "drop" &&
     (Settings.uploadOnDrag settings || Js.truthy (fmUploadOnDrag fm))).

(** The value used for a setting the note may override: the frontmatter
    field when it is present and truthy, else the global value. *)
Definition resolved (fm : Frontmatter) (field : string) (global : Js.Value)
    : Js.Value :=
  match fm ≫= (fun m => m !! field) with
  | Some v => if Js.truthy v then v else global
  | None => global
  end.

(** ** Sample inputs *)

Definition pngFile (name : string) : File.t :=
  {| File.name := name; File.type := "image/png"; File.bytes := [] |}.

Definition pdfFile : File.t :=
  {| File.name := "paper.pdf"; File.type := "application/pdf"; File.bytes := [] |}.

Definition pasteOf (file : File.t) : Event.t :=
  {| Event.type := "paste"; Event.files := Some [file] |}.

(** A note holding [Hello], the cursor behind it, nothing shown yet. *)
Definition helloWorld : World :=
  {| editor := {| doc := "Hello"; selFrom := 5; selTo := 5 |};
     defaultPrevented := false; notices := []; log := [] |}.

(** Global settings that upload to the local folder [media]. *)
Definition localSettings : Settings.t :=
  {| Settings.accessKey := "";
     Settings.secretKey := "";
     Settings.region := "";
     Settings.bucket := "";
     Settings.folder := "";
     Settings.imageUrlPath := "";
     Settings.uploadOnDrag := true;
     Settings.localUpload := true;
     Settings.localUploadFolder := "media";
     Settings.endpoint := "";
     Settings.forcePathStyle := false;
     Settings.uploadVideo := false;
     Settings.uploadAudio := false;
     Settings.uploadPdf := true;
     Settings.public := true |}.

(** Global settings that upload to the bucket [notes] under [img]. *)
Definition bucketSettings : Settings.t :=
  {| Settings.accessKey := "AK";
     Settings.secretKey := "SK";
     Settings.region := "eu";
     Settings.bucket := "notes";
     Settings.folder := "img";
     Settings.imageUrlPath := "https://cdn.example.com/";
     Settings.uploadOnDrag := true;
     Settings.localUpload := false;
     Settings.localUploadFolder := "";
     Settings.endpoint := "https://s3.example.com/";
     Settings.forcePathStyle := false;
     Settings.uploadVideo := false;
     Settings.uploadAudio := false;
     Settings.uploadPdf := true;
     Settings.public := true |}.

(** Collaborators that all succeed on a desktop vault, the user idle. *)
Definition allFine : Outcomes :=
  {| sendOutcome := None; mkdirOutcome := None; writeOutcome := None;
     adapterBasePath := Some "/vault"; whileSuspended := fun _ ed => ed |}.

(** The storage sink refuses the object. *)
Definition sendRefused : Outcomes :=
  {| sendOutcome := Some "Access Denied"; mkdirOutcome := None; writeOutcome := None;
     adapterBasePath := Some "/vault"; whileSuspended := fun _ ed => ed |}.

(** The local write fails. *)
Definition writeRefused : Outcomes :=
  {| sendOutcome := None; mkdirOutcome := None; writeOutcome := Some "EACCES";
     adapterBasePath := Some "/vault"; whileSuspended := fun _ ed => ed |}.

(** Collaborators that all succeed, the vault adapter not being a
    [FileSystemAdapter]. *)
Definition noBasePath : Outcomes :=
  {| sendOutcome := None; mkdirOutcome := None; writeOutcome := None;
     adapterBasePath := None; whileSuspended := fun _ ed => ed |}.

(** * Theorems *)

(** ** The digest agrees with the test suite of RFC 1321 *)

Example md5_empty : Md5.digest [] = "d41d8cd98f00b204e9800998ecf8427e".
Proof. vm_compute. reflexivity. Qed.

Example md5_abc : Md5.digest [x61; x62; x63]%byte = "900150983cd24fb0d6963f7d28e17f72".
Proof. vm_compute. reflexivity. Qed.

Example md5_two_blocks :
  Md5.digest (repeat x61%byte 70) = "0f5c6c4e740bfcc08c3c26ccb2673d46".
Proof. vm_compute. reflexivity. Qed.


(** ** Strings *)

Lemma app_cons a s t : String a s +:+ t = String a (s +:+ t).
Proof. reflexivity. Qed.

Lemma app_nil_l s : "" +:+ s = s.
Proof. reflexivity. Qed.

Lemma app_nil_r s : s +:+ "" = s.
Proof. induction s as [|a s IH]; [reflexivity|]. rewrite app_cons, IH. reflexivity. Qed.

Lemma app_assoc s t u : (s +:+ t) +:+ u = s +:+ t +:+ u.
Proof.
  induction s as [|a s IH]; [reflexivity|].
  rewrite !app_cons, IH. reflexivity.
Qed.

Lemma length_app s t :
  String.length (s +:+ t) = String.length s + String.length t.
Proof.
  induction s as [|a s IH]; [reflexivity|].
  rewrite app_cons. simpl. rewrite IH. reflexivity.
Qed.

Lemma length_zero s : String.length s = 0 -> s = "".
Proof. destruct s; [reflexivity | discriminate]. Qed.

Lemma take_app_length a b : take (String.length a) (a +:+ b) = a.
Proof.
  induction a as [|c a IH]; [reflexivity|].
  rewrite app_cons. simpl. rewrite IH. reflexivity.
Qed.

Lemma drop_app_length a b : drop (String.length a) (a +:+ b) = b.
Proof. induction a as [|c a IH]; [reflexivity|]. rewrite app_cons. exact IH. Qed.

Lemma drop_length s : drop (String.length s) s = "".
Proof. induction s as [|a s IH]; [reflexivity | exact IH]. Qed.

Lemma drop_take s n : take n s +:+ drop n s = s.
Proof.
  revert n. induction s as [|a s IH]; intros [|n]; try reflexivity.
  simpl. rewrite app_cons, IH. reflexivity.
Qed.

Lemma startsWith_cons a b s t :
  startsWith (String a s) (String b t) = true <-> a = b /\ startsWith s t = true.
Proof.
  unfold startsWith. simpl. destruct (ascii_dec b a) as [->|Hne].
  - split; [intros H; split; [reflexivity | exact H] | intros [_ H]; exact H].
  - split; [discriminate | intros [-> _]; contradiction].
Qed.

Lemma startsWith_nil s : startsWith s "" = true.
Proof. destruct s; reflexivity. Qed.

Lemma startsWith_spec s t : startsWith s t = true <-> exists r, s = t +:+ r.
Proof.
  revert s. induction t as [|b t IH]; intros s.
  - rewrite startsWith_nil. split; [intros _; exists s; reflexivity | reflexivity].
  - destruct s as [|a s].
    + split; [discriminate | intros [r Hr]; discriminate].
    + rewrite startsWith_cons, IH. split.
      * intros [-> [r ->]]. exists r. reflexivity.
      * intros [r Hr]. rewrite app_cons in Hr. injection Hr as -> ->.
        split; [reflexivity | exists r; reflexivity].
Qed.

Lemma includes_spec s t :
  includes s t = true <-> exists pre post, s = pre +:+ t +:+ post.
Proof.
  induction s as [|a s IH].
  - cbn [includes]. rewrite orb_false_r, startsWith_spec. split.
    + intros [r Hr]. exists "", r. exact Hr.
    + intros [pre [post H]]. destruct pre; [exists post; exact H | discriminate].
  - cbn [includes]. rewrite orb_true_iff, startsWith_spec, IH. split.
    + intros [[r Hr] | [pre [post H]]].
      * exists "", r. exact Hr.
      * exists (String a pre), post. rewrite app_cons, H. reflexivity.
    + intros [pre [post H]]. destruct pre as [|c pre].
      * left. exists post. exact H.
      * right. rewrite app_cons in H. injection H as _ H. exists pre, post. exact H.
Qed.

Lemma indexOf_range s t : (-1 <= indexOf s t <= Z.of_nat (String.length s))%Z.
Proof.
  induction s as [|a s IH]; cbn [indexOf String.length].
  - destruct (startsWith "" t); lia.
  - destruct (startsWith (String a s) t); [lia|].
    destruct (indexOf s t =? -1)%Z eqn:E; lia.
Qed.

Lemma indexOf_none s t : indexOf s t = (-1)%Z <-> includes s t = false.
Proof.
  induction s as [|a s IH]; cbn [indexOf includes].
  - destruct (startsWith "" t); simpl; split; congruence.
  - destruct (startsWith (String a s) t); simpl; [split; congruence|].
    rewrite <- IH. pose proof (indexOf_range s t).
    destruct (indexOf s t =? -1)%Z eqn:E; lia.
Qed.

(** [indexOf] finds an occurrence, and the leftmost one. *)
Lemma indexOf_found s t :
  indexOf s t <> (-1)%Z ->
  exists pre post,
    s = pre +:+ t +:+ post /\
    Z.of_nat (String.length pre) = indexOf s t /\
    forall pre' post', s = pre' +:+ t +:+ post' ->
      String.length pre <= String.length pre'.
Proof.
  induction s as [|a s IH]; cbn [indexOf].
  - destruct (startsWith "" t) eqn:E; [intros _ | congruence].
    apply startsWith_spec in E as [r Hr]. exists "", r.
    split; [exact Hr | split; [reflexivity | intros; simpl; lia]].
  - destruct (startsWith (String a s) t) eqn:E.
    + intros _. apply startsWith_spec in E as [r Hr]. exists "", r.
      split; [exact Hr | split; [reflexivity | intros; simpl; lia]].
    + destruct (indexOf s t =? -1)%Z eqn:E1; [congruence | intros _].
      apply Z.eqb_neq in E1. destruct (IH E1) as [pre [post [Hs [Hlen Hmin]]]].
      exists (String a pre), post. rewrite app_cons, <- Hs.
      split; [reflexivity | split; [simpl; lia|]].
      intros [|c pre'] post' H.
      * exfalso. assert (startsWith (String a s) t = true) as Hp
          by (apply startsWith_spec; exists post'; exact H).
        congruence.
      * rewrite app_cons in H. injection H as _ H. apply Hmin in H. simpl. lia.
Qed.

(** ** Lines of a document *)

Lemma split_cons_sep c s : split c (String c s) = "" :: split c s.
Proof. cbn [split]. rewrite Ascii.eqb_refl. reflexivity. Qed.

Lemma split_cons_other c a s :
  a <> c ->
  exists l ls, split c s = l :: ls /\ split c (String a s) = String a l :: ls.
Proof.
  intros Hne. cbn [split]. apply Ascii.eqb_neq in Hne. rewrite Hne.
  destruct (split c s) as [|l ls] eqn:E.
  - exfalso. destruct s as [|b s]; cbn [split] in E; [discriminate|].
    destruct (Ascii.eqb b c); [discriminate|].
    destruct (split c s); discriminate.
  - exists l, ls. split; reflexivity.
Qed.

(** Every line is a piece of the document, found at the offset [lineStart]
    gives for it. *)
Lemma split_lookup c s (i : nat) (l : string) :
  split c s !! i = Some l ->
  exists pre post,
    s = pre +:+ l +:+ post /\ String.length pre = lineStart (split c s) i.
Proof.
  revert i l. induction s as [|a s IH]; intros i l H.
  - destruct i as [|i]; cbn in H; [|discriminate]. injection H as <-.
    exists "", "". split; reflexivity.
  - destruct (ascii_dec a c) as [->|Hne].
    + rewrite split_cons_sep in *. destruct i as [|i]; cbn in H.
      * injection H as <-. exists "", (String c s). split; reflexivity.
      * destruct (IH i l H) as [pre [post [Hs Hlen]]].
        exists (String c pre), post. rewrite app_cons, <- Hs.
        split; [reflexivity|]. cbn. rewrite Hlen. reflexivity.
    + destruct (split_cons_other c a s Hne) as [l0 [ls [E0 E1]]].
      rewrite E1 in *. rewrite E0 in IH. destruct i as [|i]; cbn in H.
      * injection H as <-.
        destruct (IH 0 l0 eq_refl) as [pre [post [Hs Hlen]]].
        apply length_zero in Hlen. subst pre.
        exists "", post. rewrite Hs. split; reflexivity.
      * destruct (IH (S i) l H) as [pre [post [Hs Hlen]]].
        exists (String a pre), post. rewrite app_cons, <- Hs.
        split; [reflexivity|]. cbn in *. rewrite Hlen. reflexivity.
Qed.

Lemma split_lookup_includes c s (i : nat) (l t : string) :
  split c s !! i = Some l -> includes l t = true -> includes s t = true.
Proof.
  intros Hl Ht. apply split_lookup in Hl as [pre [post [Hs _]]].
  apply includes_spec in Ht as [p [q Hl]]. apply includes_spec.
  exists (pre +:+ p), (q +:+ post). rewrite Hs, Hl, !app_assoc. reflexivity.
Qed.

Lemma includes_cons a s t : includes s t = true -> includes (String a s) t = true.
Proof. intros H. cbn [includes]. rewrite H. apply orb_true_r. Qed.

(** A text without the separator, when it occurs in the document, occurs in
    one of its lines. *)
Lemma startsWith_head_line c t :
  includes t (String c "") = false ->
  forall s, startsWith s t = true ->
  exists l ls, split c s = l :: ls /\ startsWith l t = true.
Proof.
  induction t as [|b t IH]; intros Hc s Hs.
  - destruct (split c s) as [|l ls] eqn:E.
    + destruct s as [|a s]; [discriminate|].
      destruct (ascii_dec a c) as [->|Hne].
      * rewrite split_cons_sep in E. discriminate.
      * destruct (split_cons_other c a s Hne) as [l0 [ls0 [_ E1]]]. congruence.
    + exists l, ls. split; [reflexivity | apply startsWith_nil].
  - destruct s as [|a s]; [discriminate|].
    apply startsWith_cons in Hs as [-> Hs].
    cbn [includes] in Hc. apply orb_false_iff in Hc as [Hb Hc].
    assert (b <> c) as Hne.
    { intros ->. assert (startsWith (String c t) (String c "") = true) as H.
      { apply startsWith_cons. split; [reflexivity | apply startsWith_nil]. }
      congruence. }
    destruct (IH Hc s Hs) as [l [ls [E Hl]]].
    destruct (split_cons_other c b s Hne) as [l0 [ls0 [E0 E1]]].
    rewrite E in E0. injection E0 as <- <-.
    exists (String b l), ls. split; [exact E1|].
    apply startsWith_cons. split; [reflexivity | exact Hl].
Qed.

Lemma includes_line c s t :
  includes t (String c "") = false ->
  includes s t = true ->
  exists (i : nat) (l : string), split c s !! i = Some l /\ includes l t = true.
Proof.
  intros Hc. induction s as [|a s IH]; intros H.
  - cbn [includes] in H. rewrite orb_false_r in H.
    destruct (startsWith_head_line c t Hc "" H) as [l [ls [E Hl]]].
    exists 0, l. rewrite E. split; [reflexivity|].
    destruct l; cbn [includes]; rewrite Hl; reflexivity.
  - cbn [includes] in H. apply orb_true_iff in H as [H|H].
    + destruct (startsWith_head_line c t Hc _ H) as [l [ls [E Hl]]].
      exists 0, l. rewrite E. split; [reflexivity|].
      destruct l; cbn [includes]; rewrite Hl; reflexivity.
    + destruct (IH H) as [i [l [Hi Hl]]].
      destruct (ascii_dec a c) as [->|Hne].
      * exists (S i), l. rewrite split_cons_sep. split; [exact Hi | exact Hl].
      * destruct (split_cons_other c a s Hne) as [l0 [ls0 [E0 E1]]].
        rewrite E1. rewrite E0 in Hi. destruct i as [|i]; cbn in Hi.
        -- injection Hi as <-. exists 0, (String a l0).
           split; [reflexivity | apply includes_cons; exact Hl].
        -- exists (S i), l. split; [exact Hi | exact Hl].
Qed.

(** ** The scan of [replaceText] *)

Lemma findLine_None (lines : list string) t k :
  (forall (i : nat) (l : string), lines !! i = Some l -> includes l t = false) ->
  findLine lines t k = None.
Proof.
  revert k. induction lines as [|l rest IH]; intros k H; [reflexivity|].
  cbn [findLine]. assert (indexOf l t = (-1)%Z) as ->.
  { apply indexOf_none. apply (H 0 l). reflexivity. }
  cbn. apply IH. intros i l' Hl'. apply (H (S i) l'). exact Hl'.
Qed.

Lemma findLine_Some (lines : list string) t k pos :
  findLine lines t k = Some pos ->
  exists (i : nat) (l : string),
    line pos = (k + Z.of_nat i)%Z /\
    lines !! i = Some l /\
    indexOf l t = ch pos /\ ch pos <> (-1)%Z /\
    forall (j : nat) (l' : string),
      j < i -> lines !! j = Some l' -> includes l' t = false.
Proof.
  revert k. induction lines as [|l rest IH]; intros k H; [discriminate|].
  cbn [findLine] in H. destruct (indexOf l t =? -1)%Z eqn:E; cbn in H.
  - apply Z.eqb_eq in E. destruct (IH _ H) as [i [l1 [Hline [Hl1 [Hch [Hne Hbefore]]]]]].
    exists (S i), l1. split; [lia|]. split; [exact Hl1|].
    split; [exact Hch|]. split; [exact Hne|].
    intros [|j] l' Hj Hl'; cbn in Hl'.
    + injection Hl' as <-. apply indexOf_none. exact E.
    + apply (Hbefore j l'); [lia | exact Hl'].
  - apply Z.eqb_neq in E. injection H as <-. exists 0, l. cbn.
    split; [lia|]. split; [reflexivity|]. split; [reflexivity|].
    split; [exact E|]. intros j l' Hj. lia.
Qed.

(** ** The trimmed target *)

Lemma trimEnd_snoc_white s a :
  isWhite a = true -> trimEnd (s +:+ String a "") = trimEnd s.
Proof.
  intros Ha. induction s as [|b s IH].
  - rewrite app_nil_l. cbn. rewrite Ha. reflexivity.
  - rewrite app_cons. cbn [trimEnd]. rewrite IH. reflexivity.
Qed.

Lemma trimEnd_snoc_other s a :
  isWhite a = false -> trimEnd (s +:+ String a "") = s +:+ String a "".
Proof.
  intros Ha. induction s as [|b s IH].
  - rewrite app_nil_l. cbn. rewrite Ha. reflexivity.
  - rewrite app_cons. cbn [trimEnd]. rewrite IH.
    destruct s; reflexivity.
Qed.

Lemma trim_pastePlaceText k : trim (pastePlaceText k) = placeholder k.
Proof.
  unfold trim, pastePlaceText, placeholder.
  change (trimStart ("![uploading...](" +:+ k +:+ ")" +:+ nl))
    with ("![uploading...](" +:+ k +:+ ")" +:+ nl).
  rewrite <- !app_assoc. unfold nl. rewrite trimEnd_snoc_white by reflexivity.
  rewrite trimEnd_snoc_other by reflexivity. reflexivity.
Qed.

Lemma includes_char_app a b c :
  includes (a +:+ b) (String c "") = includes a (String c "") || includes b (String c "").
Proof.
  induction a as [|x a IH].
  - reflexivity.
  - rewrite app_cons. cbn [includes]. rewrite IH.
    assert (startsWith (String x (a +:+ b)) (String c "")
            = startsWith (String x a) (String c "")) as ->.
    { unfold startsWith. cbn. destruct (ascii_dec c x); [|reflexivity].
      fold (startsWith (a +:+ b) ""). fold (startsWith a "").
      rewrite !startsWith_nil. reflexivity. }
    apply orb_assoc.
Qed.

Lemma placeholder_one_line k :
  includes k nl = false -> includes (placeholder k) nl = false.
Proof.
  intros Hk. unfold placeholder, nl. rewrite !includes_char_app.
  fold nl. rewrite Hk. reflexivity.
Qed.

Lemma findLine_None_inv (lines : list string) t k :
  findLine lines t k = None ->
  forall (i : nat) (l : string), lines !! i = Some l -> includes l t = false.
Proof.
  revert k. induction lines as [|l0 rest IH]; intros k H i l Hl; [destruct i; discriminate|].
  cbn [findLine] in H. destruct (indexOf l0 t =? -1)%Z eqn:E; cbn in H; [|discriminate].
  destruct i as [|i]; cbn in Hl.
  - injection Hl as <-. apply indexOf_none. apply Z.eqb_eq. exact E.
  - apply (IH _ H i l Hl).
Qed.

(** ** [replaceText] *)

(** When the scan stops at [pos], the span of the trimmed target in that
    line is replaced, the rest of the document is kept, and the cursor is
    left at the start of the span. *)
Lemma replaceText_found ed target replacement pos :
  findLine (split LF (doc ed)) (trim target) 0 = Some pos ->
  exists (i : nat) (l lpre lpost before after : string),
    split LF (doc ed) !! i = Some l /\
    (forall (j : nat) (l' : string),
        j < i -> split LF (doc ed) !! j = Some l' -> includes l' (trim target) = false) /\
    l = lpre +:+ trim target +:+ lpost /\
    (forall p q, l = p +:+ trim target +:+ q -> String.length lpre <= String.length p) /\
    doc ed = before +:+ l +:+ after /\
    String.length before = lineStart (split LF (doc ed)) i /\
    replaceText ed target replacement =
      {| doc := before +:+ (lpre +:+ replacement +:+ lpost) +:+ after;
         selFrom := String.length (before +:+ lpre);
         selTo := String.length (before +:+ lpre) |}.
Proof.
  intros H. unfold replaceText, getValue. rewrite H.
  destruct (findLine_Some _ _ _ _ H) as [i [l [Hline [Hl [Hch [Hne Hbefore]]]]]].
  assert (indexOf l (trim target) <> (-1)%Z) as Hfound by congruence.
  destruct (indexOf_found _ _ Hfound) as [lpre [lpost [El [Hlen Hmin]]]].
  destruct (split_lookup _ _ _ _ Hl) as [before [after [Edoc Hstart]]].
  exists i, l, lpre, lpost, before, after.
  repeat (split; [assumption|]).
  destruct pos as [pl pc]. cbn [line ch] in *.
  assert (Z.to_nat pl = i) as Ei by lia.
  assert (Z.to_nat pc = String.length lpre) as Ec by lia.
  assert (doc ed = (before +:+ lpre) +:+ trim target +:+ lpost +:+ after) as Edoc'.
  { rewrite Edoc, El, !app_assoc. reflexivity. }
  assert (String.length (doc ed) =
          String.length (before +:+ lpre) + String.length (trim target)
          + String.length (lpost +:+ after)) as Elen.
  { rewrite Edoc', !length_app. lia. }
  unfold replaceRange, setCursor, posToOffset. cbn [doc selFrom selTo line ch].
  rewrite Ei, Ec, <- Hstart.
  replace (Z.to_nat (pc + JsString.length (trim target)))
    with (String.length lpre + String.length (trim target))
    by (unfold JsString.length; lia).
  replace (Nat.min (String.length before + String.length lpre) (String.length (doc ed)))
    with (String.length (before +:+ lpre)) by (rewrite length_app in *; lia).
  replace (Nat.min (String.length before
                    + (String.length lpre + String.length (trim target)))
                   (String.length (doc ed)))
    with (String.length ((before +:+ lpre) +:+ trim target))
    by (rewrite !length_app in *; lia).
  unfold mapPos. rewrite Nat.leb_refl.
  rewrite Edoc' at 1. rewrite take_app_length.
  rewrite <- (app_assoc (before +:+ lpre)) in Edoc'. rewrite Edoc' at 1.
  rewrite drop_app_length, !app_assoc. reflexivity.
Qed.

Lemma replaceText_absent ed target replacement :
  includes (doc ed) (trim target) = false ->
  replaceText ed target replacement = ed.
Proof.
  intros H. unfold replaceText, getValue. rewrite findLine_None; [reflexivity|].
  intros i l Hl. destruct (includes l (trim target)) eqn:E; [|reflexivity].
  rewrite (split_lookup_includes _ _ _ _ _ Hl E) in H. discriminate.
Qed.

(** ** The extension of a file name *)

Lemma afterLastDot_length name e :
  afterLastDot name = Some e -> String.length e < String.length name.
Proof.
  revert e. induction name as [|a s IH]; intros e H; [discriminate|].
  cbn [afterLastDot] in H. destruct (afterLastDot s) as [e'|].
  - injection H as <-. specialize (IH e' eq_refl). cbn. lia.
  - destruct (Ascii.eqb a "."); [|discriminate]. injection H as <-. cbn. lia.
Qed.

Lemma afterLastDot_drop name e :
  afterLastDot name = Some e ->
  drop (String.length name - String.length e) name = e.
Proof.
  revert e. induction name as [|a s IH]; intros e H; [discriminate|].
  cbn [afterLastDot] in H. destruct (afterLastDot s) as [e'|] eqn:E.
  - injection H as <-. pose proof (afterLastDot_length _ _ E) as Hlt.
    cbn [String.length].
    replace (S (String.length s) - String.length e')
      with (S (String.length s - String.length e')) by lia.
    cbn [drop]. apply IH. reflexivity.
  - destruct (Ascii.eqb a "."); [|discriminate]. injection H as <-.
    cbn [String.length].
    replace (S (String.length s) - String.length s) with 1 by lia.
    reflexivity.
Qed.

Lemma startsWith_dot a s : startsWith (String a s) "." = Ascii.eqb a ".".
Proof.
  destruct (Ascii.eqb a ".") eqn:E.
  - apply Ascii.eqb_eq in E as ->. apply startsWith_cons.
    split; [reflexivity | apply startsWith_nil].
  - apply Ascii.eqb_neq in E. apply not_true_is_false.
    intros H. apply startsWith_cons in H as [-> _]. contradiction.
Qed.

Lemma lastIndexOf_dot name :
  lastIndexOf name "." =
  match afterLastDot name with
  | None => (-1)%Z
  | Some e => (Z.of_nat (String.length name) - Z.of_nat (String.length e) - 1)%Z
  end.
Proof.
  induction name as [|a s IH]; [reflexivity|].
  cbn [lastIndexOf afterLastDot]. rewrite IH, startsWith_dot.
  destruct (afterLastDot s) as [e|] eqn:E.
  - pose proof (afterLastDot_length _ _ E) as Hlt.
    destruct (_ =? -1)%Z eqn:E1; [apply Z.eqb_eq in E1; lia|].
    cbn [String.length]. lia.
  - cbn. destruct (Ascii.eqb a "."); [cbn [String.length]; lia | reflexivity].
Qed.

(** On names shorter than 2^32 characters (no engine builds a longer string)
    the slice of the code is the extension after a dot that does not lead
    the name.  A last dot at index 0 and a missing dot both wrap around in
    [>>> 0] and push the start of the slice beyond the end of the name. *)
Lemma extensionOf_dotted name :
  (Z.of_nat (String.length name) < 2 ^ 32)%Z ->
  extensionOf name = dottedExtension name.
Proof.
  intros Hlen. unfold extensionOf, dottedExtension, slice, ushr0, JsString.length.
  rewrite lastIndexOf_dot. change (2 ^ 32)%Z with 4294967296%Z in *.
  destruct (afterLastDot name) as [e|] eqn:E.
  - pose proof (afterLastDot_length _ _ E) as Hlt.
    destruct (String.length e + 1 =? String.length name) eqn:E0.
    + apply Nat.eqb_eq in E0.
      replace (Z.of_nat (String.length name) - Z.of_nat (String.length e) - 1 - 1)%Z
        with (-1)%Z by lia.
      change ((-1) mod 4294967296 + 2)%Z with 4294967297%Z.
      change (4294967297 <? 0)%Z with false. cbv iota.
      rewrite Z.min_r by lia. rewrite Nat2Z.id. apply drop_length.
    + apply Nat.eqb_neq in E0.
      rewrite Z.mod_small by lia.
      destruct (_ <? 0)%Z eqn:E1; [apply Z.ltb_lt in E1; lia|].
      rewrite Z.min_l by lia.
      replace (Z.to_nat _) with (String.length name - String.length e) by lia.
      apply afterLastDot_drop. exact E.
  - change ((-1 - 1) mod 4294967296 + 2)%Z with 4294967296%Z.
    change (4294967296 <? 0)%Z with false. cbv iota.
    rewrite Z.min_r by lia. rewrite Nat2Z.id. apply drop_length.
Qed.

(** ** Content keys *)

(** C3, as stated, fails: a name without a dot yields the digest followed
    by a dot, and a name whose only dot leads it yields the same, not the
    digest, a dot and the substring after the dot. *)
Lemma content_key_keeps_trailing_dot :
  afterLastDot "README" = None /\
  newFileName (pngFile "README") = "d41d8cd98f00b204e9800998ecf8427e." /\
  newFileName (pngFile "README")
    <> specContentKey (Md5.digest (File.bytes (pngFile "README"))) "README" /\
  afterLastDot ".png" = Some "png" /\
  newFileName (pngFile ".png") = "d41d8cd98f00b204e9800998ecf8427e." /\
  newFileName (pngFile ".png")
    <> specContentKey (Md5.digest (File.bytes (pngFile ".png"))) ".png".
Proof. vm_compute. repeat split; discriminate. Qed.

(** C3, amended: for every file whose name is shorter than 2^32 characters
    the content key is the hex digest, a dot, and the extension, where the
    extension is the substring after the last dot when that dot is not the
    first character of the name and is empty otherwise; the dot is written
    in every case. *)
Theorem content_key_shape (file : File.t) :
  (Z.of_nat (String.length (File.name file)) < 2 ^ 32)%Z ->
  newFileName file =
    Md5.digest (File.bytes file) +:+ "." +:+ dottedExtension (File.name file).
Proof. intros H. unfold newFileName. rewrite extensionOf_dotted by exact H. reflexivity. Qed.

Lemma content_key_shape_witness :
  newFileName (pngFile "shot.final.png") =
    Md5.digest (File.bytes (pngFile "shot.final.png")) +:+ "."
    +:+ dottedExtension (File.name (pngFile "shot.final.png")).
Proof. apply (content_key_shape (pngFile "shot.final.png")). vm_compute. reflexivity. Defined.

(** C9, as stated, fails: two files with the same bytes and the same
    substring after the last dot get different keys when one name starts
    with its only dot. *)
Lemma same_bytes_same_suffix_different_keys :
  File.bytes (pngFile ".png") = File.bytes (pngFile "a.png") /\
  afterLastDot (File.name (pngFile ".png")) = afterLastDot (File.name (pngFile "a.png")) /\
  newFileName (pngFile ".png") <> newFileName (pngFile "a.png").
Proof. vm_compute. repeat split; discriminate. Qed.

(** C9, amended: two files with identical bytes get identical content keys
    whenever their extensions agree, the extension being the substring after
    the last dot when that dot is not the first character of the name and
    empty otherwise (names shorter than 2^32 characters); nothing else of
    the name or of the file matters, and the key is a function of the file. *)
Theorem content_key_depends_on_bytes_and_extension (f1 f2 : File.t) :
  File.bytes f1 = File.bytes f2 ->
  (Z.of_nat (String.length (File.name f1)) < 2 ^ 32)%Z ->
  (Z.of_nat (String.length (File.name f2)) < 2 ^ 32)%Z ->
  dottedExtension (File.name f1) = dottedExtension (File.name f2) ->
  newFileName f1 = newFileName f2.
Proof.
  intros Hb H1 H2 He. unfold newFileName.
  rewrite !extensionOf_dotted by assumption. rewrite Hb, He. reflexivity.
Qed.

Lemma content_key_depends_on_bytes_and_extension_witness :
  newFileName (pngFile "a.png")
  = newFileName {| File.name := "holiday.2024.png"; File.type := "image/x-png";
                   File.bytes := [] |}.
Proof.
  apply content_key_depends_on_bytes_and_extension; vm_compute; reflexivity.
Defined.

(** ** Reconciliation *)

(** A one-line placeholder that occurs in the document occurs in a line. *)
Lemma placeholder_in_document_in_line ed k :
  includes k nl = false ->
  includes (doc ed) (placeholder k) = true ->
  exists (i : nat) (l : string),
    split LF (doc ed) !! i = Some l /\ includes l (placeholder k) = true.
Proof.
  intros Hk H. apply includes_line; [|exact H].
  apply placeholder_one_line. exact Hk.
Qed.

(** C5, as stated, fails on the cursor: the placeholder is replaced by the
    markup and the rest of the text is kept, but the cursor, which stood at
    the end of the note, is moved to the start of the replaced span. *)
Lemma reconciliation_moves_cursor :
  let ed := {| doc := placeholder "k" +:+ nl +:+ "abc"; selFrom := 22; selTo := 22 |} in
  let ed' := replaceText ed (pastePlaceText "k") "![image](u)" in
  includes (doc ed) (placeholder "k") = true /\
  doc ed' = "![image](u)" +:+ nl +:+ "abc" /\
  selFrom ed' = 0 /\ selTo ed' = 0 /\
  (selFrom ed', selTo ed') <> (selFrom ed, selTo ed).
Proof. vm_compute. repeat split; discriminate. Qed.

(** C5, amended: when the placeholder text occurs in a line of the
    document, reconciliation replaces exactly the span of its first
    occurrence on the first such line (scanning top to bottom) with the
    generated markup; every other byte of the document is unchanged; and the
    cursor is moved to the start of the replaced span. *)
Theorem reconciliation_replaces_first_span ed k markup (i0 : nat) (l0 : string) :
  split LF (doc ed) !! i0 = Some l0 ->
  includes l0 (placeholder k) = true ->
  exists (i : nat) (l lpre lpost before after : string),
    split LF (doc ed) !! i = Some l /\
    (forall (j : nat) (l' : string),
        j < i -> split LF (doc ed) !! j = Some l' ->
        includes l' (placeholder k) = false) /\
    l = lpre +:+ placeholder k +:+ lpost /\
    (forall p q, l = p +:+ placeholder k +:+ q ->
                 String.length lpre <= String.length p) /\
    doc ed = before +:+ l +:+ after /\
    String.length before = lineStart (split LF (doc ed)) i /\
    replaceText ed (pastePlaceText k) markup =
      {| doc := before +:+ (lpre +:+ markup +:+ lpost) +:+ after;
         selFrom := String.length (before +:+ lpre);
         selTo := String.length (before +:+ lpre) |}.
Proof.
  intros Hl0 Hin.
  destruct (findLine (split LF (doc ed)) (trim (pastePlaceText k)) 0) as [pos|] eqn:E.
  - pose proof (replaceText_found ed (pastePlaceText k) markup pos E) as H.
    rewrite trim_pastePlaceText in H. exact H.
  - rewrite trim_pastePlaceText in E.
    rewrite (findLine_None_inv _ _ _ E i0 l0 Hl0) in Hin. discriminate.
Qed.

Lemma reconciliation_replaces_first_span_witness :
  exists (i : nat) (l lpre lpost before after : string),
    split LF ("Hello" +:+ nl +:+ "see " +:+ placeholder "k" +:+ "!") !! i = Some l /\
    (forall (j : nat) (l' : string),
        j < i ->
        split LF ("Hello" +:+ nl +:+ "see " +:+ placeholder "k" +:+ "!") !! j = Some l' ->
        includes l' (placeholder "k") = false) /\
    l = lpre +:+ placeholder "k" +:+ lpost /\
    (forall p q, l = p +:+ placeholder "k" +:+ q ->
                 String.length lpre <= String.length p) /\
    "Hello" +:+ nl +:+ "see " +:+ placeholder "k" +:+ "!" = before +:+ l +:+ after /\
    String.length before
      = lineStart (split LF ("Hello" +:+ nl +:+ "see " +:+ placeholder "k" +:+ "!")) i /\
    replaceText
      {| doc := "Hello" +:+ nl +:+ "see " +:+ placeholder "k" +:+ "!";
         selFrom := 0; selTo := 0 |}
      (pastePlaceText "k") "![image](u)" =
      {| doc := before +:+ (lpre +:+ "![image](u)" +:+ lpost) +:+ after;
         selFrom := String.length (before +:+ lpre);
         selTo := String.length (before +:+ lpre) |}.
Proof.
  apply (reconciliation_replaces_first_span
           {| doc := "Hello" +:+ nl +:+ "see " +:+ placeholder "k" +:+ "!";
              selFrom := 0; selTo := 0 |}
           "k" "![image](u)" 1 ("see " +:+ placeholder "k" +:+ "!"));
    vm_compute; reflexivity.
Defined.

(** C7: when the placeholder text does not occur in the document at
    reconciliation time, reconciliation leaves the editor as it is, text and
    cursor, and raises nothing: the step only records that it ran. *)
Theorem reconciliation_noop_without_placeholder (w : World) (k replacement : string) :
  includes (doc (editor w)) (placeholder k) = false ->
  replaceText (editor w) (pastePlaceText k) replacement = editor w /\
  doReplaceText (pastePlaceText k) replacement w
    = logged (ReplaceText (pastePlaceText k) replacement) w.
Proof.
  intros H.
  assert (replaceText (editor w) (pastePlaceText k) replacement = editor w) as E.
  { apply replaceText_absent. rewrite trim_pastePlaceText. exact H. }
  split; [exact E|].
  unfold doReplaceText, onEditor, logged. cbn [editor defaultPrevented notices log].
  rewrite E. reflexivity.
Qed.

Lemma reconciliation_noop_without_placeholder_witness :
  replaceText (editor helloWorld) (pastePlaceText "k") "![image](u)" = editor helloWorld /\
  doReplaceText (pastePlaceText "k") "![image](u)" helloWorld
    = logged (ReplaceText (pastePlaceText "k") "![image](u)") helloWorld.
Proof.
  apply (reconciliation_noop_without_placeholder helloWorld "k" "![image](u)").
  vm_compute. reflexivity.
Defined.

(** ** Event intake *)

Lemma thisType_firstEnabledKind (f : File.t) (v a p : Js.Value) :
  thisType (Some f) v a p =
  from_option kindName ""
    (firstEnabledKind (File.type f) (Js.truthy v) (Js.truthy a) (Js.truthy p)).
Proof.
  unfold thisType, firstEnabledKind, kindRules. cbn [List.find snd fst].
  destruct (includes (File.type f) "video" && Js.truthy v); [reflexivity|].
  destruct (includes (File.type f) "audio" && Js.truthy a); [reflexivity|].
  destruct (includes (File.type f) "application/pdf" && Js.truthy p); [reflexivity|].
  destruct (includes (File.type f) "image"); reflexivity.
Qed.

Lemma kindName_truthy k : Js.truthy (Js.Str (kindName k)) = true.
Proof. destruct k; reflexivity. Qed.

(** C8: the kind chosen for the first file of an event is the first, in the
    order video, audio, pdf, image, whose pattern occurs in the declared
    MIME type and, for video, audio and pdf, whose flag is on; an event that
    reaches classification is claimed with that kind, and when no kind
    matches the handler leaves the event and the world untouched. *)
Theorem classification_precedence (o : Outcomes) (settings : Settings.t)
    (noteFile : option string) (fm : Frontmatter) (eventType : string)
    (f : File.t) (others : list File.t) (w : World) :
  let ev := {| Event.type := eventType; Event.files := Some (f :: others) |} in
  let kind := firstEnabledKind (File.type f)
                (Js.truthy (uploadVideo settings fm))
                (Js.truthy (uploadAudio settings fm))
                (Js.truthy (uploadPdf settings fm)) in
  thisType (Some f) (uploadVideo settings fm) (uploadAudio settings fm)
           (uploadPdf settings fm) = from_option kindName "" kind /\
  match kind with
  | Some k =>
      intake settings noteFile fm ev w =
        if reachesClassification settings noteFile fm eventType w
        then Some (f, kindName k) else None
  | None =>
      intake settings noteFile fm ev w = None /\
      pasteHandler o settings noteFile fm ev w = w
  end.
Proof.
  intros ev kind. split; [apply thisType_firstEnabledKind|].
  assert (intake settings noteFile fm ev w =
          if reachesClassification settings noteFile fm eventType w
          then match kind with Some k => Some (f, kindName k) | None => None end
          else None) as E.
  { unfold intake, reachesClassification, ev. cbn [Event.type Event.files firstFile].
    destruct (defaultPrevented w); [reflexivity|].
    destruct noteFile as [noteName|]; [|reflexivity].
    destruct (Js.truthy (Js.Str noteName)); [|reflexivity].
    cbn [negb andb].
    destruct (String.eqb eventType "paste").
    - cbn [orb]. rewrite thisType_firstEnabledKind. fold kind.
      destruct kind as [k|]; cbn [from_option];
        [rewrite kindName_truthy|]; reflexivity.
    - cbn [orb]. destruct (String.eqb eventType "drop"); [|reflexivity].
      destruct (Settings.uploadOnDrag settings), (Js.truthy (fmUploadOnDrag fm));
        cbn [negb andb orb]; try reflexivity.
      all: rewrite thisType_firstEnabledKind; fold kind;
        destruct kind as [k|]; cbn [from_option];
        try rewrite kindName_truthy; reflexivity. }
  destruct kind as [k|] eqn:Ek; [exact E|].
  assert (intake settings noteFile fm ev w = None) as E'.
  { rewrite E. destruct (reachesClassification _ _ _ _ _); reflexivity. }
  split; [exact E'|]. unfold pasteHandler. rewrite E'. reflexivity.
Qed.

(** ** Effective configuration *)

Lemma orElse_fmField (m : gmap string Js.Value) (field : string) (global : Js.Value) :
  Js.orElse (fmField (Some m) field) global = resolved (Some m) field global.
Proof.
  unfold Js.orElse, fmField, resolved. cbn.
  destruct (m !! field) as [v|]; reflexivity.
Qed.

(** C4, as stated, fails: with [localUpload: false] in the frontmatter and
    local upload switched on globally, the note's [false] is not used; the
    effective value is the global [true] and the file is written to the
    local folder, nothing is sent to the bucket. *)
Lemma frontmatter_false_does_not_override :
  let m : gmap string Js.Value := {[ "localUpload" := Js.Bool false ]} in
  let final := pasteHandler allFine localSettings (Some "note.md") (Some m)
                 (pasteOf (pngFile "a.png")) helloWorld in
  m !! "localUpload" = Some (Js.Bool false) /\
  localUpload localSettings (Some m) = Js.Bool true /\
  log final =
    [ PreventDefault;
      Suspend (ReadArrayBuffer "a.png");
      ReplaceSelection (pastePlaceText "d41d8cd98f00b204e9800998ecf8427e.png");
      Suspend (Mkdir "media");
      Suspend (WriteBinary "media/d41d8cd98f00b204e9800998ecf8427e.png" []);
      ReplaceText (pastePlaceText "d41d8cd98f00b204e9800998ecf8427e.png")
        "![image](media/d41d8cd98f00b204e9800998ecf8427e.png)";
      NewNotice "Image uploaded to media folder" ].
Proof. vm_compute. repeat split. Qed.

(** C4, amended: for each per-document field (localUpload, uploadVideo,
    uploadAudio, uploadPdf, and localUploadFolder for the folder) the
    frontmatter value is used when the field is present and truthy; when it
    is absent, or present with a falsy value such as false, the global
    setting is used. *)
Theorem frontmatter_overrides_when_truthy (settings : Settings.t) (fm : Frontmatter) :
  localUpload settings fm
    = resolved fm "localUpload" (Js.Bool (Settings.localUpload settings)) /\
  uploadVideo settings fm
    = resolved fm "uploadVideo" (Js.Bool (Settings.uploadVideo settings)) /\
  uploadAudio settings fm
    = resolved fm "uploadAudio" (Js.Bool (Settings.uploadAudio settings)) /\
  uploadPdf settings fm
    = resolved fm "uploadPdf" (Js.Bool (Settings.uploadPdf settings)) /\
  folder settings fm
    = resolved fm "localUploadFolder" (Js.Str (Settings.folder settings)) /\
  localUploadFolder settings fm
    = resolved fm "localUploadFolder" (Js.Str (Settings.localUploadFolder settings)).
Proof.
  unfold localUpload, uploadVideo, uploadAudio, uploadPdf, folder, localUploadFolder,
    fmLocalUpload, fmUploadVideo, fmUploadAudio, fmUploadPdf.
  destruct fm as [m|].
  - rewrite !orElse_fmField. repeat split.
    all: unfold Js.orElse, fmUploadFolder, resolved; cbn;
      destruct (m !! "localUploadFolder") as [v|]; reflexivity.
  - repeat split.
Qed.

(** ** Traces of the handler *)

Lemma log_logged e w : log (logged e w) = log w ++ [e].
Proof. reflexivity. Qed.

Lemma log_preventDefault w : log (preventDefault w) = log w ++ [PreventDefault].
Proof. reflexivity. Qed.

Lemma log_suspend o io w : log (suspend o io w) = log w ++ [Suspend io].
Proof. reflexivity. Qed.

Lemma log_doReplaceSelection text w :
  log (doReplaceSelection text w) = log w ++ [ReplaceSelection text].
Proof. reflexivity. Qed.

Lemma log_doReplaceText target replacement w :
  log (doReplaceText target replacement w) = log w ++ [ReplaceText target replacement].
Proof. reflexivity. Qed.

Lemma log_newNotice message w : log (newNotice message w) = log w ++ [NewNotice message].
Proof. reflexivity. Qed.

Lemma log_consoleError message w :
  log (consoleError message w) = log w ++ [ConsoleError message].
Proof. reflexivity. Qed.

Lemma log_consoleLog message w :
  log (consoleLog message w) = log w ++ [ConsoleLog message].
Proof. reflexivity. Qed.

Lemma log_unhandled message w :
  log (unhandled message w) = log w ++ [Unhandled message].
Proof. reflexivity. Qed.

Lemma prevented_preventDefault w : defaultPrevented (preventDefault w) = true.
Proof. reflexivity. Qed.

Lemma prevented_logged e w : defaultPrevented (logged e w) = defaultPrevented w.
Proof. reflexivity. Qed.

Lemma prevented_suspend o io w :
  defaultPrevented (suspend o io w) = defaultPrevented w.
Proof. reflexivity. Qed.

Lemma prevented_doReplaceSelection text w :
  defaultPrevented (doReplaceSelection text w) = defaultPrevented w.
Proof. reflexivity. Qed.

Lemma prevented_doReplaceText target replacement w :
  defaultPrevented (doReplaceText target replacement w) = defaultPrevented w.
Proof. reflexivity. Qed.

Lemma prevented_newNotice message w :
  defaultPrevented (newNotice message w) = defaultPrevented w.
Proof. reflexivity. Qed.

Lemma prevented_consoleError message w :
  defaultPrevented (consoleError message w) = defaultPrevented w.
Proof. reflexivity. Qed.

Lemma prevented_consoleLog message w :
  defaultPrevented (consoleLog message w) = defaultPrevented w.
Proof. reflexivity. Qed.

Lemma prevented_unhandled message w :
  defaultPrevented (unhandled message w) = defaultPrevented w.
Proof. reflexivity. Qed.

Create Rewrite HintDb world.
Hint Rewrite log_logged log_preventDefault log_suspend log_doReplaceSelection
  log_doReplaceText log_newNotice log_consoleError log_consoleLog log_unhandled
  prevented_preventDefault prevented_logged prevented_suspend
  prevented_doReplaceSelection prevented_doReplaceText prevented_newNotice
  prevented_consoleError prevented_consoleLog prevented_unhandled : world.

(** Unfold the sequencing of a handler branch and read off what it logs,
    one action at a time. *)
Ltac run_actions :=
  unfold upload, uploadRemote, uploadLocal, onFulfilled, seqA;
  cbv beta zeta;
  autorewrite with world.

Ltac flatten_log := rewrite <- ?List.app_assoc; cbn [app].

Lemma newS3Client_region settings :
  Settings.region settings <> "" -> newS3Client settings = Js.Ok tt.
Proof.
  intros H. unfold newS3Client. destruct (Settings.region settings); [contradiction|].
  reflexivity.
Qed.

Lemma newS3Client_no_region settings :
  Settings.region settings = "" -> newS3Client settings = Js.Throw "Region is missing".
Proof. intros H. unfold newS3Client. rewrite H. reflexivity. Qed.

(** A claimed event runs [upload]. *)
Lemma pasteHandler_claimed o settings noteFile fm ev w file type :
  intake settings noteFile fm ev w = Some (file, type) ->
  pasteHandler o settings noteFile fm ev w = upload o settings fm file type w.
Proof. intros H. unfold pasteHandler. rewrite H. reflexivity. Qed.

(** The start of every upload. *)
Lemma upload_starts o settings fm file type w :
  exists rest,
    log (upload o settings fm file type w) =
      log w ++ PreventDefault
            :: Suspend (ReadArrayBuffer (File.name file))
            :: ReplaceSelection (pastePlaceText (newFileName file))
            :: rest /\
    defaultPrevented (upload o settings fm file type w) = true.
Proof.
  unfold upload. destruct (negb (Js.truthy (localUpload settings fm))).
  - unfold uploadRemote. destruct (newS3Client settings) as [[]|refusal].
    + destruct (sendOutcome o) as [message|].
      * eexists. split; run_actions; flatten_log; reflexivity.
      * unfold onFulfilled. destruct (wrapFileDependingOnType _ _ _).
        -- eexists. split; run_actions; flatten_log; reflexivity.
        -- eexists. split; run_actions; flatten_log; reflexivity.
    + eexists. split; run_actions; flatten_log; reflexivity.
  - unfold uploadLocal. destruct (mkdirOutcome o) as [message|].
    + eexists. split; run_actions; flatten_log; reflexivity.
    + destruct (writeOutcome o) as [message|].
      * eexists. split; run_actions; flatten_log; reflexivity.
      * unfold onFulfilled. destruct (wrapFileDependingOnType _ _ _).
        -- eexists. split; run_actions; flatten_log; reflexivity.
        -- eexists. split; run_actions; flatten_log; reflexivity.
Qed.

Lemma pastePlaceText_placeholder k : pastePlaceText k = placeholder k +:+ nl.
Proof. unfold pastePlaceText, placeholder. rewrite !app_assoc. reflexivity. Qed.

(** Once inserted, the text is in the document. *)
Lemma doReplaceSelection_present text w :
  includes (doc (editor (doReplaceSelection text w))) text = true.
Proof.
  unfold doReplaceSelection, onEditor, logged, replaceSelection.
  cbn [editor doc]. apply includes_spec. eexists. eexists. reflexivity.
Qed.

(** C2, as stated, fails: on a claimed paste the handler is suspended, for
    the read of the file's bytes, before the placeholder is inserted. *)
Lemma placeholder_waits_for_file_bytes :
  let final := pasteHandler allFine bucketSettings (Some "note.md") None
                 (pasteOf (pngFile "a.png")) helloWorld in
  intake bucketSettings (Some "note.md") None (pasteOf (pngFile "a.png")) helloWorld
    = Some (pngFile "a.png", "image") /\
  insertedBeforeSuspension (pastePlaceText (newFileName (pngFile "a.png"))) (log final)
    = false /\
  firstn 3 (log final) =
    [ PreventDefault;
      Suspend (ReadArrayBuffer "a.png");
      ReplaceSelection (pastePlaceText "d41d8cd98f00b204e9800998ecf8427e.png") ].
Proof. vm_compute. repeat split. Qed.

(** C2, amended: for every claimed paste or drop event the default action
    is suppressed at once, and the placeholder text followed by a newline is
    inserted at the selection as the handler's first change to the document,
    after the read of the file's bytes (whose digest the placeholder names)
    has been awaited and before any upload operation is started. *)
Theorem placeholder_inserted_after_bytes_read (o : Outcomes) (settings : Settings.t)
    (noteFile : option string) (fm : Frontmatter) (ev : Event.t) (w : World)
    (file : File.t) (type : string) :
  intake settings noteFile fm ev w = Some (file, type) ->
  exists rest,
    log (pasteHandler o settings noteFile fm ev w) =
      log w ++ PreventDefault
            :: Suspend (ReadArrayBuffer (File.name file))
            :: ReplaceSelection (placeholder (newFileName file) +:+ nl)
            :: rest /\
    defaultPrevented (pasteHandler o settings noteFile fm ev w) = true.
Proof.
  intros H. rewrite (pasteHandler_claimed _ _ _ _ _ _ _ _ H).
  rewrite <- pastePlaceText_placeholder. apply upload_starts.
Qed.

Lemma placeholder_inserted_after_bytes_read_witness :
  exists rest,
    log (pasteHandler allFine bucketSettings (Some "note.md") None
           (pasteOf (pngFile "a.png")) helloWorld) =
      log helloWorld ++ PreventDefault
            :: Suspend (ReadArrayBuffer (File.name (pngFile "a.png")))
            :: ReplaceSelection (placeholder (newFileName (pngFile "a.png")) +:+ nl)
            :: rest /\
    defaultPrevented (pasteHandler allFine bucketSettings (Some "note.md") None
                        (pasteOf (pngFile "a.png")) helloWorld) = true.
Proof.
  apply (placeholder_inserted_after_bytes_read allFine bucketSettings (Some "note.md")
           None (pasteOf (pngFile "a.png")) helloWorld (pngFile "a.png") "image").
  vm_compute. reflexivity.
Defined.

(** ** Failed uploads *)

(** Whatever the input, once the client is built a rejected send only logs
    the error and shows the notice: no [replaceText] runs. *)
Lemma rejected_send_trace o settings fm file type w message :
  Js.truthy (localUpload settings fm) = false ->
  Settings.region settings <> "" ->
  sendOutcome o = Some message ->
  exists command,
    log (upload o settings fm file type w) =
      log w ++ [ PreventDefault;
                 Suspend (ReadArrayBuffer (File.name file));
                 ReplaceSelection (pastePlaceText (newFileName file));
                 Suspend (ReadArrayBuffer (File.name file));
                 Suspend (S3Send command);
                 ConsoleError message;
                 NewNotice ("Error uploading image to S3 bucket "
                            +:+ Settings.bucket settings +:+ ": " +:+ message) ].
Proof.
  intros Hl Hr Hs. unfold upload. rewrite Hl. cbn [negb].
  unfold uploadRemote. rewrite (newS3Client_region _ Hr), Hs.
  eexists. run_actions. flatten_log.
  reflexivity.
Qed.

(** The same for a rejected local write. *)
Lemma rejected_write_trace o settings fm file type w message :
  Js.truthy (localUpload settings fm) = true ->
  mkdirOutcome o = None ->
  writeOutcome o = Some message ->
  log (upload o settings fm file type w) =
    log w ++ [ PreventDefault;
               Suspend (ReadArrayBuffer (File.name file));
               ReplaceSelection (pastePlaceText (newFileName file));
               Suspend (Mkdir (Js.toString (localUploadFolder settings fm)));
               Suspend (WriteBinary (localUploadPath settings fm (newFileName file))
                                    (File.bytes file));
               ConsoleLog message;
               NewNotice ("Error uploading image to "
                          +:+ Js.toString (localUploadFolder settings fm)
                          +:+ " folder: " +:+ message) ].
Proof.
  intros Hl Hm Hw. unfold upload. rewrite Hl. cbn [negb].
  unfold uploadLocal. rewrite Hm, Hw. run_actions. flatten_log. reflexivity.
Qed.

(** C1 on the code: when the bucket refuses the object, and when the local
    write fails, the notice with the error's message is shown but no
    search-and-replace runs; the placeholder stays in the document. *)
Theorem failed_upload_keeps_placeholder :
  let remote := pasteHandler sendRefused bucketSettings (Some "note.md") None
                  (pasteOf (pngFile "a.png")) helloWorld in
  let local := pasteHandler writeRefused localSettings (Some "note.md") None
                 (pasteOf (pngFile "a.png")) helloWorld in
  doc (editor remote)
    = "Hello" +:+ placeholder "d41d8cd98f00b204e9800998ecf8427e.png" +:+ nl /\
  notices remote = ["Error uploading image to S3 bucket notes: Access Denied"] /\
  existsb (fun e => match e with ReplaceText _ _ => true | _ => false end) (log remote)
    = false /\
  doc (editor local)
    = "Hello" +:+ placeholder "d41d8cd98f00b204e9800998ecf8427e.png" +:+ nl /\
  notices local = ["Error uploading image to media folder: EACCES"] /\
  existsb (fun e => match e with ReplaceText _ _ => true | _ => false end) (log local)
    = false.
Proof. vm_compute. repeat split. Qed.

(** ** PDFs in local mode *)

Lemma wrap_pdf_with_base_path location base :
  base <> "" ->
  wrapFileDependingOnType location "pdf" base
    = Js.Throw "PDFs cannot be embedded in local mode".
Proof. intros Hne. destruct base; [contradiction | reflexivity]. Qed.

(** With a non-empty base path a local PDF is refused: the placeholder is
    removed first, then the error is logged and shown. *)
Lemma local_pdf_refused_with_base_path o settings fm file w base :
  Js.truthy (localUpload settings fm) = true ->
  mkdirOutcome o = None ->
  writeOutcome o = None ->
  adapterBasePath o = Some base ->
  base <> "" ->
  log (upload o settings fm file "pdf" w) =
    log w ++ [ PreventDefault;
               Suspend (ReadArrayBuffer (File.name file));
               ReplaceSelection (pastePlaceText (newFileName file));
               Suspend (Mkdir (Js.toString (localUploadFolder settings fm)));
               Suspend (WriteBinary (localUploadPath settings fm (newFileName file))
                                    (File.bytes file));
               ReplaceText (pastePlaceText (newFileName file)) "";
               ConsoleLog "PDFs cannot be embedded in local mode";
               NewNotice ("Error uploading image to "
                          +:+ Js.toString (localUploadFolder settings fm)
                          +:+ " folder: PDFs cannot be embedded in local mode") ].
Proof.
  intros Hl Hm Hw Hb Hne. unfold upload. rewrite Hl. cbn [negb].
  unfold uploadLocal. rewrite Hm, Hw, Hb. cbn [default from_option].
  unfold onFulfilled. rewrite (wrap_pdf_with_base_path _ _ Hne).
  run_actions. flatten_log. reflexivity.
Qed.

(** The guard of the PDF branch tests the base path, not the mode: were
    the vault adapter no [FileSystemAdapter], the base path would be empty
    and a local PDF would be framed like a remote one.  The handler needs
    the [crypto] module of Node and so runs in the desktop application only,
    where the adapter is a [FileSystemAdapter]. *)
Lemma local_pdf_embedded_without_base_path :
  let final := pasteHandler noBasePath localSettings (Some "note.md") None
                 (pasteOf pdfFile) helloWorld in
  let path := "media/d41d8cd98f00b204e9800998ecf8427e.pdf" in
  let frame :=
    "<iframe frameborder=0 border=0 width=100% height=800" +:+ nl +:+
    String "009" "src=" +:+ dq +:+ "https://docs.google.com/viewer?url=" +:+ path
    +:+ "?raw=true" +:+ dq +:+ ">" +:+ nl +:+ "</iframe>" in
  Js.truthy (localUpload localSettings None) = true /\
  intake localSettings (Some "note.md") None (pasteOf pdfFile) helloWorld
    = Some (pdfFile, "pdf") /\
  wrapFileDependingOnType path "pdf" "" = Js.Ok frame /\
  log final =
    [ PreventDefault;
      Suspend (ReadArrayBuffer "paper.pdf");
      ReplaceSelection (pastePlaceText "d41d8cd98f00b204e9800998ecf8427e.pdf");
      Suspend (Mkdir "media");
      Suspend (WriteBinary path []);
      ReplaceText (pastePlaceText "d41d8cd98f00b204e9800998ecf8427e.pdf") frame;
      NewNotice "Image uploaded to media folder" ] /\
  doc (editor final) = "Hello" +:+ frame +:+ nl /\
  notices final = ["Image uploaded to media folder"].
Proof. vm_compute. repeat split. Qed.

(** C6: when a PDF is uploaded in local mode (the folder is made and the
    file written, the vault adapter being the [FileSystemAdapter] of the
    desktop application with its non-empty base path), markup generation
    fails with the error "PDFs cannot be embedded in local mode"; the
    failure first runs the search-and-replace with the empty replacement,
    which removes the placeholder, then the error reaches the catch handler,
    which logs it and shows the notice with its message. *)
Theorem local_pdf_fails_and_placeholder_removed (o : Outcomes)
    (settings : Settings.t) (noteFile : option string) (fm : Frontmatter)
    (ev : Event.t) (w : World) (file : File.t) (base : string) :
  intake settings noteFile fm ev w = Some (file, "pdf") ->
  Js.truthy (localUpload settings fm) = true ->
  mkdirOutcome o = None ->
  writeOutcome o = None ->
  adapterBasePath o = Some base ->
  base <> "" ->
  wrapFileDependingOnType (localUploadPath settings fm (newFileName file)) "pdf" base
    = Js.Throw "PDFs cannot be embedded in local mode" /\
  log (pasteHandler o settings noteFile fm ev w) =
    log w ++ [ PreventDefault;
               Suspend (ReadArrayBuffer (File.name file));
               ReplaceSelection (pastePlaceText (newFileName file));
               Suspend (Mkdir (Js.toString (localUploadFolder settings fm)));
               Suspend (WriteBinary (localUploadPath settings fm (newFileName file))
                                    (File.bytes file));
               ReplaceText (pastePlaceText (newFileName file)) "";
               ConsoleLog "PDFs cannot be embedded in local mode";
               NewNotice ("Error uploading image to "
                          +:+ Js.toString (localUploadFolder settings fm)
                          +:+ " folder: PDFs cannot be embedded in local mode") ] /\
  editor (pasteHandler o settings noteFile fm ev w) =
    replaceText
      (whileSuspended o
         (WriteBinary (localUploadPath settings fm (newFileName file)) (File.bytes file))
         (whileSuspended o (Mkdir (Js.toString (localUploadFolder settings fm)))
            (replaceSelection
               (whileSuspended o (ReadArrayBuffer (File.name file)) (editor w))
               (pastePlaceText (newFileName file)))))
      (pastePlaceText (newFileName file)) "" /\
  notices (pasteHandler o settings noteFile fm ev w) =
    notices w ++ ["Error uploading image to "
                  +:+ Js.toString (localUploadFolder settings fm)
                  +:+ " folder: PDFs cannot be embedded in local mode"].
Proof.
  intros Hin Hl Hm Hw Hb Hne.
  rewrite (pasteHandler_claimed _ _ _ _ _ _ _ _ Hin).
  split; [apply wrap_pdf_with_base_path; exact Hne|].
  split; [apply (local_pdf_refused_with_base_path o settings fm file w base);
          assumption|].
  unfold upload. rewrite Hl. cbn [negb]. unfold uploadLocal. rewrite Hm, Hw, Hb.
  cbn [default from_option]. unfold onFulfilled.
  rewrite (wrap_pdf_with_base_path _ _ Hne). unfold seqA. cbv beta zeta.
  split; reflexivity.
Qed.

Lemma local_pdf_fails_and_placeholder_removed_witness :
  wrapFileDependingOnType
    (localUploadPath localSettings None (newFileName pdfFile)) "pdf" "/vault"
    = Js.Throw "PDFs cannot be embedded in local mode" /\
  doc (editor (pasteHandler allFine localSettings (Some "note.md") None
                 (pasteOf pdfFile) helloWorld)) = "Hello" +:+ nl /\
  notices (pasteHandler allFine localSettings (Some "note.md") None
             (pasteOf pdfFile) helloWorld) =
    ["Error uploading image to media folder: PDFs cannot be embedded in local mode"].
Proof.
  destruct (local_pdf_fails_and_placeholder_removed allFine localSettings
              (Some "note.md") None (pasteOf pdfFile) helloWorld pdfFile "/vault")
    as [Hwrap [_ [He Hn]]].
  - vm_compute. reflexivity.
  - vm_compute. reflexivity.
  - reflexivity.
  - reflexivity.
  - reflexivity.
  - discriminate.
  - split; [exact Hwrap|]. split.
    + rewrite He. vm_compute. reflexivity.
    + rewrite Hn. vm_compute. reflexivity.
Defined.

(** ** The folder of the remote key *)

Lemma orElse_fmUploadFolder fm global :
  Js.orElse (fmUploadFolder fm) global = resolved fm "localUploadFolder" global.
Proof.
  unfold Js.orElse, fmUploadFolder, resolved. destruct fm as [m|]; cbn.
  - destruct (m !! "localUploadFolder") as [v|]; reflexivity.
  - reflexivity.
Qed.

Lemma resolved_truthy (m : gmap string Js.Value) field global v :
  m !! field = Some v -> Js.truthy v = true -> resolved (Some m) field global = v.
Proof. intros Hv Ht. unfold resolved. cbn. rewrite Hv, Ht. reflexivity. Qed.

(** Read a trace that is written out: an entry that is a send gives its
    command, any other entry is none. *)
Ltac sent_command H :=
  cbn [In] in H;
  repeat (destruct H as [H|H];
          [first [discriminate | injection H as <-; reflexivity]|]);
  contradiction.

(** Whatever a remote upload sends, it sends under the key of the handler;
    when the client cannot be built it sends nothing. *)
Lemma remote_upload_commands o settings fm file type w :
  Js.truthy (localUpload settings fm) = false ->
  exists delta,
    log (upload o settings fm file type w) = log w ++ delta /\
    forall command,
      In (Suspend (S3Send command)) delta ->
      command =
        {| Bucket := Settings.bucket settings;
           Key := key settings fm (newFileName file);
           Body := File.bytes file;
           ContentType := if Js.truthy (Js.Str (File.type file))
                          then Some (File.type file) else None;
           ACL := if Settings.public settings then "public-read" else "private" |}.
Proof.
  intros Hl. unfold upload. rewrite Hl. cbn [negb]. unfold uploadRemote.
  destruct (newS3Client settings) as [[]|refusal].
  - destruct (sendOutcome o) as [message|].
    + eexists. split; [run_actions; flatten_log; reflexivity|].
      intros command Hin. sent_command Hin.
    + unfold onFulfilled. destruct (wrapFileDependingOnType _ _ _).
      * eexists. split; [run_actions; flatten_log; reflexivity|].
        intros command Hin. sent_command Hin.
      * eexists. split; [run_actions; flatten_log; reflexivity|].
        intros command Hin. sent_command Hin.
  - eexists. split; [run_actions; flatten_log; reflexivity|].
    intros command Hin. sent_command Hin.
Qed.

(** C10, as stated, fails: a [localUploadFolder] that is present in the
    frontmatter but empty does not replace the global folder; the object is
    sent under the global folder [img]. *)
Lemma empty_localUploadFolder_does_not_override :
  let m : gmap string Js.Value := {[ "localUploadFolder" := Js.Str "" ]} in
  let final := pasteHandler allFine bucketSettings (Some "note.md") (Some m)
                 (pasteOf (pngFile "a.png")) helloWorld in
  m !! "localUploadFolder" = Some (Js.Str "") /\
  key bucketSettings (Some m) (newFileName (pngFile "a.png"))
    = "img/d41d8cd98f00b204e9800998ecf8427e.png" /\
  key bucketSettings (Some m) (newFileName (pngFile "a.png"))
    <> underFolder (Js.Str "") (newFileName (pngFile "a.png")) /\
  nth_error (log final) 4 =
    Some (Suspend (S3Send
            {| Bucket := "notes";
               Key := "img/d41d8cd98f00b204e9800998ecf8427e.png";
               Body := [];
               ContentType := Some "image/png";
               ACL := "public-read" |})).
Proof. vm_compute. repeat split. discriminate. Qed.

(** C10, amended: in a remote upload every object that is sent has a
    storage key built from the frontmatter field [localUploadFolder] when
    that field is present with a truthy value (its string, a slash, the
    file name), and from the global [folder] setting when it is absent or
    falsy; no other frontmatter field names the remote folder, and the same
    field, under the same rule, replaces the local target folder. *)
Theorem remote_key_uses_localUploadFolder (o : Outcomes) (settings : Settings.t)
    (fm : Frontmatter) (file : File.t) (type : string) (w : World) :
  Js.truthy (localUpload settings fm) = false ->
  exists delta,
    log (upload o settings fm file type w) = log w ++ delta /\
    (forall command,
        In (Suspend (S3Send command)) delta ->
        Key command =
          underFolder
            (resolved fm "localUploadFolder" (Js.Str (Settings.folder settings)))
            (newFileName file)) /\
    localUploadPath settings fm (newFileName file) =
      underFolder
        (resolved fm "localUploadFolder" (Js.Str (Settings.localUploadFolder settings)))
        (newFileName file) /\
    forall (m : gmap string Js.Value) (v : Js.Value),
      fm = Some m -> m !! "localUploadFolder" = Some v -> Js.truthy v = true ->
      (forall command,
          In (Suspend (S3Send command)) delta ->
          Key command = Js.toString v +:+ "/" +:+ newFileName file) /\
      localUploadPath settings fm (newFileName file)
        = Js.toString v +:+ "/" +:+ newFileName file.
Proof.
  intros Hl.
  destruct (remote_upload_commands o settings fm file type w Hl) as [delta [E Hsent]].
  exists delta. split; [exact E|].
  assert (forall command,
             In (Suspend (S3Send command)) delta ->
             Key command =
               underFolder
                 (resolved fm "localUploadFolder" (Js.Str (Settings.folder settings)))
                 (newFileName file)) as Hkey.
  { intros command Hin. rewrite (Hsent command Hin). cbn [Key].
    unfold key, folder. rewrite orElse_fmUploadFolder. reflexivity. }
  assert (localUploadPath settings fm (newFileName file) =
          underFolder
            (resolved fm "localUploadFolder"
               (Js.Str (Settings.localUploadFolder settings)))
            (newFileName file)) as Hpath.
  { unfold localUploadPath, localUploadFolder. rewrite orElse_fmUploadFolder.
    reflexivity. }
  split; [exact Hkey|]. split; [exact Hpath|].
  intros m v -> Hv Ht. split.
  - intros command Hin. rewrite (Hkey command Hin).
    rewrite (resolved_truthy m _ _ v Hv Ht). unfold underFolder. rewrite Ht.
    reflexivity.
  - rewrite Hpath, (resolved_truthy m _ _ v Hv Ht). unfold underFolder.
    rewrite Ht. reflexivity.
Qed.

Lemma remote_key_uses_localUploadFolder_witness :
  exists delta,
    log (upload allFine bucketSettings
           (Some {[ "localUploadFolder" := Js.Str "shots" ]})
           (pngFile "a.png") "image" helloWorld)
      = log helloWorld ++ delta /\
    nth_error delta 4 =
      Some (Suspend (S3Send
              {| Bucket := "notes";
                 Key := "shots/d41d8cd98f00b204e9800998ecf8427e.png";
                 Body := [];
                 ContentType := Some "image/png";
                 ACL := "public-read" |})) /\
    forall command,
      In (Suspend (S3Send command)) delta ->
      Key command = "shots/d41d8cd98f00b204e9800998ecf8427e.png".
Proof.
  destruct (remote_key_uses_localUploadFolder allFine bucketSettings
              (Some {[ "localUploadFolder" := Js.Str "shots" ]})
              (pngFile "a.png") "image" helloWorld)
    as [delta [E [_ [_ H]]]].
  - vm_compute. reflexivity.
  - exists delta. split; [exact E|].
    destruct (H {[ "localUploadFolder" := Js.Str "shots" ]} (Js.Str "shots"))
      as [Hk _]; [reflexivity | vm_compute; reflexivity | reflexivity |].
    split.
    + pose proof E as E'. vm_compute in E'. rewrite <- E'. reflexivity.
    + intros command Hin. rewrite (Hk command Hin). vm_compute. reflexivity.
Defined.

(** * Further properties of the code *)

(** ** The first occurrence in the document *)

Lemma startsWith_first_line c t s l ls :
  includes t (String c "") = false ->
  split c s = l :: ls ->
  startsWith l t = startsWith s t.
Proof.
  intros Hc E. destruct (startsWith s t) eqn:Es.
  - destruct (startsWith_head_line c t Hc s Es) as [l' [ls' [E' Hl']]].
    rewrite E in E'. injection E' as <- <-. exact Hl'.
  - destruct (startsWith l t) eqn:El; [|reflexivity].
    assert (split c s !! 0 = Some l) as H0 by (rewrite E; reflexivity).
    apply split_lookup in H0 as [pre [post [Hs Hlen]]].
    rewrite E in Hlen. cbn in Hlen. apply length_zero in Hlen. subst pre.
    apply startsWith_spec in El as [r Hr].
    assert (startsWith s t = true) as Hst.
    { apply startsWith_spec. exists (r +:+ post).
      rewrite Hs, app_nil_l, Hr, app_assoc. reflexivity. }
    congruence.
Qed.

Lemma findLine_ch_nonneg (lines : list string) t k pos :
  findLine lines t k = Some pos ->
  (0 <= ch pos)%Z /\ exists i : nat, line pos = (k + Z.of_nat i)%Z.
Proof.
  intros H. destruct (findLine_Some _ _ _ _ H) as [i [l [Hline [_ [Hch [Hne _]]]]]].
  pose proof (indexOf_range l t). split; [lia | exists i; exact Hline].
Qed.

Lemma no_char_head c b t :
  includes (String b t) (String c "") = false -> b <> c.
Proof.
  intros H ->. cbn [includes] in H. apply orb_false_iff in H as [H _].
  assert (startsWith (String c t) (String c "") = true) as H'.
  { apply startsWith_cons. split; [reflexivity | apply startsWith_nil]. }
  congruence.
Qed.

Lemma findLine_cons l rest t k :
  findLine (l :: rest) t k =
    if negb (indexOf l t =? -1)%Z then Some {| line := k; ch := indexOf l t |}
    else findLine rest t (k + 1)%Z.
Proof. reflexivity. Qed.

Lemma lineStart_0 lines : lineStart lines 0 = 0.
Proof. destruct lines; reflexivity. Qed.

Lemma lineStart_S l lines n :
  lineStart (l :: lines) (S n) = String.length l + 1 + lineStart lines n.
Proof. reflexivity. Qed.

Lemma indexOf_cons a s t :
  indexOf (String a s) t =
    if startsWith (String a s) t then 0%Z
    else if (indexOf s t =? -1)%Z then (-1)%Z else (indexOf s t + 1)%Z.
Proof. reflexivity. Qed.

(** For a target without the separator the scan by lines stops at the
    first occurrence of the target in the whole text. *)
Lemma findLine_indexOf c t :
  includes t (String c "") = false ->
  forall s k pos,
    findLine (split c s) t k = Some pos ->
    (Z.of_nat (lineStart (split c s) (Z.to_nat (line pos - k))) + ch pos)%Z
      = indexOf s t.
Proof.
  intros Hc. induction s as [|a s IH]; intros k pos H.
  - change (split c "") with [""] in *. rewrite findLine_cons in H.
    destruct (indexOf "" t =? -1)%Z eqn:E; cbn [negb] in H; [discriminate|].
    injection H as <-. cbn [line ch].
    replace (Z.to_nat (k - k)) with 0 by lia. rewrite lineStart_0. reflexivity.
  - destruct (findLine_ch_nonneg _ _ _ _ H) as [Hch [i Hi]].
    destruct (ascii_dec a c) as [->|Hne].
    + rewrite split_cons_sep in *. rewrite findLine_cons in H.
      destruct t as [|b t'].
      * change (indexOf "" "") with 0%Z in H. cbn [negb Z.eqb] in H.
        injection H as <-. cbn [line ch].
        replace (Z.to_nat (k - k)) with 0 by lia.
        rewrite lineStart_0, indexOf_cons, startsWith_nil. reflexivity.
      * change (indexOf "" (String b t')) with (-1)%Z in H.
        cbn [negb Z.eqb] in H.
        specialize (IH _ _ H).
        destruct (findLine_ch_nonneg _ _ _ _ H) as [_ [j Hj]].
        replace (Z.to_nat (line pos - k)) with (S (Z.to_nat (line pos - (k + 1))))
          by lia.
        rewrite lineStart_S, indexOf_cons. cbn [String.length].
        assert (startsWith (String c s) (String b t') = false) as ->.
        { apply not_true_is_false. intros Hs.
          apply startsWith_cons in Hs as [-> _].
          apply (no_char_head _ _ _ Hc). reflexivity. }
        pose proof (indexOf_range s (String b t')).
        destruct (indexOf s (String b t') =? -1)%Z eqn:E1;
          [apply Z.eqb_eq in E1 | apply Z.eqb_neq in E1]; lia.
    + destruct (split_cons_other c a s Hne) as [l0 [ls [E0 E1]]].
      pose proof (startsWith_first_line c t _ _ _ Hc E1) as Hsw.
      rewrite E1 in *. rewrite E0 in IH. rewrite findLine_cons in H.
      rewrite indexOf_cons in H |- *. rewrite Hsw in H.
      destruct (startsWith (String a s) t) eqn:Es.
      * cbn [negb Z.eqb] in H. injection H as <-. cbn [line ch].
        replace (Z.to_nat (k - k)) with 0 by lia. rewrite lineStart_0. reflexivity.
      * pose proof (indexOf_range l0 t) as Hr0.
        destruct (indexOf l0 t =? -1)%Z eqn:E2.
        -- cbn [negb Z.eqb] in H. apply Z.eqb_eq in E2.
           assert (findLine (l0 :: ls) t k = Some pos) as H'.
           { rewrite findLine_cons, E2. cbn [negb Z.eqb]. exact H. }
           specialize (IH _ _ H').
           destruct (findLine_ch_nonneg _ _ _ _ H) as [_ [j Hj]].
           replace (Z.to_nat (line pos - k)) with (S j) in * by lia.
           rewrite lineStart_S in *. cbn [String.length] in *.
           destruct (indexOf s t =? -1)%Z eqn:E3;
             [apply Z.eqb_eq in E3 | apply Z.eqb_neq in E3]; lia.
        -- apply Z.eqb_neq in E2.
           assert ((indexOf l0 t + 1 =? -1)%Z = false) as E4
             by (apply Z.eqb_neq; lia).
           rewrite E4 in H. cbn [negb] in H. injection H as <-. cbn [line ch].
           assert (findLine (l0 :: ls) t k
                   = Some {| line := k; ch := indexOf l0 t |}) as H'.
           { rewrite findLine_cons.
             assert ((indexOf l0 t =? -1)%Z = false) as -> by (apply Z.eqb_neq; lia).
             reflexivity. }
           specialize (IH _ _ H'). cbn [line ch] in IH.
           replace (Z.to_nat (k - k)) with 0 in * by lia.
           rewrite lineStart_0 in *.
           destruct (indexOf s t =? -1)%Z eqn:E3;
             [apply Z.eqb_eq in E3 | apply Z.eqb_neq in E3]; lia.
Qed.

(** For a target that trims to a text without line feed, [replaceText]
    works on the first occurrence of that text in the whole document. *)
Lemma replaceText_at_indexOf ed target replacement (pre post : string) :
  includes (trim target) nl = false ->
  doc ed = pre +:+ trim target +:+ post ->
  Z.of_nat (String.length pre) = indexOf (doc ed) (trim target) ->
  replaceText ed target replacement =
    {| doc := pre +:+ replacement +:+ post;
       selFrom := String.length pre;
       selTo := String.length pre |}.
Proof.
  intros Ht Hdoc Hfirst.
  assert (includes (doc ed) (trim target) = true) as Hin
    by (apply includes_spec; exists pre, post; exact Hdoc).
  unfold replaceText, getValue.
  destruct (findLine (split LF (doc ed)) (trim target) 0) as [pos|] eqn:E.
  - pose proof (findLine_indexOf LF _ Ht _ _ _ E) as Hoff.
    destruct (findLine_ch_nonneg _ _ _ _ E) as [Hch _].
    rewrite Z.sub_0_r in Hoff.
    assert (String.length (doc ed) =
            String.length pre + String.length (trim target) + String.length post)
      as Hlen by (rewrite Hdoc, !length_app; lia).
    unfold replaceRange, setCursor, posToOffset. cbn [doc selFrom selTo line ch].
    replace (Nat.min (lineStart (split LF (doc ed)) (Z.to_nat (line pos))
                      + Z.to_nat (ch pos)) (String.length (doc ed)))
      with (String.length pre) by lia.
    replace (Nat.min (lineStart (split LF (doc ed)) (Z.to_nat (line pos))
                      + Z.to_nat (ch pos + JsString.length (trim target)))
                     (String.length (doc ed)))
      with (String.length (pre +:+ trim target))
      by (rewrite length_app; unfold JsString.length; lia).
    unfold mapPos. rewrite Nat.leb_refl.
    rewrite Hdoc at 1. rewrite take_app_length.
    rewrite <- app_assoc in Hdoc. rewrite Hdoc at 1.
    rewrite drop_app_length. reflexivity.
  - destruct (includes_line LF _ _ Ht Hin) as [i [l [Hl Hlt]]].
    rewrite (findLine_None_inv _ _ _ E i l Hl) in Hlt. discriminate.
Qed.

(** X1: when the content key holds no line feed, reconciliation replaces
    the first occurrence of the placeholder in the whole document, wherever
    later occurrences stand: the text before and behind that occurrence is
    kept and the cursor is put where it started. *)
Theorem replaceText_first_occurrence ed k markup (pre post : string) :
  includes k nl = false ->
  doc ed = pre +:+ placeholder k +:+ post ->
  Z.of_nat (String.length pre) = indexOf (doc ed) (placeholder k) ->
  replaceText ed (pastePlaceText k) markup =
    {| doc := pre +:+ markup +:+ post;
       selFrom := String.length pre;
       selTo := String.length pre |}.
Proof.
  intros Hk Hdoc Hfirst. apply replaceText_at_indexOf.
  - rewrite trim_pastePlaceText. apply placeholder_one_line. exact Hk.
  - rewrite trim_pastePlaceText. exact Hdoc.
  - rewrite trim_pastePlaceText. exact Hfirst.
Qed.

Lemma replaceText_first_occurrence_witness :
  replaceText
    {| doc := "a " +:+ placeholder "k" +:+ nl +:+ "b " +:+ placeholder "k";
       selFrom := 0; selTo := 0 |}
    (pastePlaceText "k") "![image](u)" =
    {| doc := "a " +:+ "![image](u)" +:+ nl +:+ "b " +:+ placeholder "k";
       selFrom := 2; selTo := 2 |}.
Proof.
  apply (replaceText_first_occurrence
           {| doc := "a " +:+ placeholder "k" +:+ nl +:+ "b " +:+ placeholder "k";
              selFrom := 0; selTo := 0 |}
           "k" "![image](u)" "a " (nl +:+ "b " +:+ placeholder "k"));
    vm_compute; reflexivity.
Defined.

(** ** Insertion followed by reconciliation *)

Lemma editor_preventDefault w : editor (preventDefault w) = editor w.
Proof. reflexivity. Qed.

Lemma editor_suspend o io w :
  editor (suspend o io w) = whileSuspended o io (editor w).
Proof. reflexivity. Qed.

Lemma editor_doReplaceSelection text w :
  editor (doReplaceSelection text w) = replaceSelection (editor w) text.
Proof. reflexivity. Qed.

Lemma editor_doReplaceText target replacement w :
  editor (doReplaceText target replacement w)
    = replaceText (editor w) target replacement.
Proof. reflexivity. Qed.

Lemma editor_newNotice message w : editor (newNotice message w) = editor w.
Proof. reflexivity. Qed.

Lemma editor_consoleError message w : editor (consoleError message w) = editor w.
Proof. reflexivity. Qed.

Lemma editor_consoleLog message w : editor (consoleLog message w) = editor w.
Proof. reflexivity. Qed.

Lemma editor_unhandled message w : editor (unhandled message w) = editor w.
Proof. reflexivity. Qed.

Lemma notices_preventDefault w : notices (preventDefault w) = notices w.
Proof. reflexivity. Qed.

Lemma notices_suspend o io w : notices (suspend o io w) = notices w.
Proof. reflexivity. Qed.

Lemma notices_doReplaceSelection text w :
  notices (doReplaceSelection text w) = notices w.
Proof. reflexivity. Qed.

Lemma notices_doReplaceText target replacement w :
  notices (doReplaceText target replacement w) = notices w.
Proof. reflexivity. Qed.

Lemma notices_newNotice message w :
  notices (newNotice message w) = notices w ++ [message].
Proof. reflexivity. Qed.

Lemma notices_consoleError message w : notices (consoleError message w) = notices w.
Proof. reflexivity. Qed.

Lemma notices_consoleLog message w : notices (consoleLog message w) = notices w.
Proof. reflexivity. Qed.

Lemma notices_unhandled message w : notices (unhandled message w) = notices w.
Proof. reflexivity. Qed.

Hint Rewrite editor_preventDefault editor_suspend editor_doReplaceSelection
  editor_doReplaceText editor_newNotice editor_consoleError editor_consoleLog
  editor_unhandled notices_preventDefault notices_suspend
  notices_doReplaceSelection notices_doReplaceText notices_newNotice
  notices_consoleError notices_consoleLog notices_unhandled : world.

(** The text before and behind the selection. *)
Lemma replaceSelection_doc ed text :
  doc (replaceSelection ed text) =
    take (Nat.min (selFrom ed) (selTo ed)) (doc ed) +:+ text
    +:+ drop (Nat.max (selFrom ed) (selTo ed)) (doc ed).
Proof. reflexivity. Qed.

(** The placeholder written over the selection and then reconciled: when
    the inserted placeholder is the first occurrence of its text, the
    replacement takes its place and the newline written with it stays. *)
Lemma insert_then_reconcile ed k replacement :
  includes k nl = false ->
  Z.of_nat (String.length (take (Nat.min (selFrom ed) (selTo ed)) (doc ed))) =
    indexOf (doc (replaceSelection ed (pastePlaceText k))) (placeholder k) ->
  replaceText (replaceSelection ed (pastePlaceText k)) (pastePlaceText k) replacement =
    {| doc := take (Nat.min (selFrom ed) (selTo ed)) (doc ed) +:+ replacement +:+ nl
              +:+ drop (Nat.max (selFrom ed) (selTo ed)) (doc ed);
       selFrom := String.length (take (Nat.min (selFrom ed) (selTo ed)) (doc ed));
       selTo := String.length (take (Nat.min (selFrom ed) (selTo ed)) (doc ed)) |}.
Proof.
  intros Hk Hfirst.
  apply (replaceText_at_indexOf (replaceSelection ed (pastePlaceText k))
           (pastePlaceText k) replacement
           (take (Nat.min (selFrom ed) (selTo ed)) (doc ed))
           (nl +:+ drop (Nat.max (selFrom ed) (selTo ed)) (doc ed))).
  - rewrite trim_pastePlaceText. apply placeholder_one_line. exact Hk.
  - rewrite trim_pastePlaceText, replaceSelection_doc, pastePlaceText_placeholder,
      !app_assoc. reflexivity.
  - rewrite trim_pastePlaceText. exact Hfirst.
Qed.

(** What a fulfilled upload leaves in the editor and shows. *)
Lemma onFulfilled_ok location type localBase placeText done onRejected markup w :
  wrapFileDependingOnType location type localBase = Js.Ok markup ->
  editor (onFulfilled location type localBase placeText done onRejected w)
    = replaceText (editor w) placeText markup /\
  notices (onFulfilled location type localBase placeText done onRejected w)
    = notices w ++ [done].
Proof.
  intros H. unfold onFulfilled. rewrite H. unfold seqA.
  autorewrite with world. split; reflexivity.
Qed.

(** X2: a remote upload that succeeds (a region is set, so that the client
    is built, and the send is fulfilled) while the user leaves the note
    alone ends with the markup in the place of the selection, followed by
    the newline written with the placeholder, the rest of the note
    unchanged, the cursor before the markup and the success notice shown;
    this needs the inserted placeholder to be the first occurrence of its
    text. *)
Theorem remote_upload_round_trip (o : Outcomes) (settings : Settings.t)
    (fm : Frontmatter) (file : File.t) (type markup : string) (w : World) :
  idle o ->
  Js.truthy (localUpload settings fm) = false ->
  Settings.region settings <> "" ->
  sendOutcome o = None ->
  wrapFileDependingOnType
    (Settings.imageUrlPath settings +:+ key settings fm (newFileName file)) type ""
    = Js.Ok markup ->
  includes (newFileName file) nl = false ->
  Z.of_nat (String.length
              (take (Nat.min (selFrom (editor w)) (selTo (editor w))) (doc (editor w))))
    = indexOf (doc (replaceSelection (editor w) (pastePlaceText (newFileName file))))
              (placeholder (newFileName file)) ->
  editor (upload o settings fm file type w) =
    {| doc := take (Nat.min (selFrom (editor w)) (selTo (editor w))) (doc (editor w))
              +:+ markup +:+ nl
              +:+ drop (Nat.max (selFrom (editor w)) (selTo (editor w))) (doc (editor w));
       selFrom := String.length
                    (take (Nat.min (selFrom (editor w)) (selTo (editor w)))
                          (doc (editor w)));
       selTo := String.length
                  (take (Nat.min (selFrom (editor w)) (selTo (editor w)))
                        (doc (editor w))) |} /\
  notices (upload o settings fm file type w) =
    notices w ++ ["Image uploaded to S3 bucket: " +:+ Settings.bucket settings].
Proof.
  intros Hidle Hl Hr Hs Hwrap Hk Hfirst.
  unfold upload. rewrite Hl. cbn [negb]. unfold uploadRemote.
  rewrite (newS3Client_region _ Hr), Hs.
  unfold seqA. cbv beta zeta.
  match goal with
  | |- context [onFulfilled ?loc ?ty ?base ?pt ?dn ?rej ?w0] =>
      destruct (onFulfilled_ok loc ty base pt dn rej markup w0 Hwrap) as [He Hn]
  end.
  rewrite He, Hn. autorewrite with world. rewrite !Hidle.
  split; [|reflexivity].
  apply insert_then_reconcile; assumption.
Qed.

Lemma remote_upload_round_trip_witness :
  editor (upload allFine bucketSettings None (pngFile "a.png") "image" helloWorld) =
    {| doc := "Hello![image](https://cdn.example.com/img/d41d8cd98f00b204e9800998ecf8427e.png)"
              +:+ nl;
       selFrom := 5; selTo := 5 |} /\
  notices (upload allFine bucketSettings None (pngFile "a.png") "image" helloWorld) =
    ["Image uploaded to S3 bucket: notes"].
Proof.
  apply (remote_upload_round_trip allFine bucketSettings None (pngFile "a.png") "image"
           "![image](https://cdn.example.com/img/d41d8cd98f00b204e9800998ecf8427e.png)"
           helloWorld).
  - intros io ed. reflexivity.
  - vm_compute. reflexivity.
  - discriminate.
  - reflexivity.
  - vm_compute. reflexivity.
  - vm_compute. reflexivity.
  - vm_compute. reflexivity.
Defined.

(** X3: a local upload that succeeds while the user leaves the note alone
    ends the same way, with the markup built from the local path and the
    base path of the vault, and the notice naming the local folder. *)
Theorem local_upload_round_trip (o : Outcomes) (settings : Settings.t)
    (fm : Frontmatter) (file : File.t) (type markup : string) (w : World) :
  idle o ->
  Js.truthy (localUpload settings fm) = true ->
  mkdirOutcome o = None ->
  writeOutcome o = None ->
  wrapFileDependingOnType (localUploadPath settings fm (newFileName file)) type
    (default "" (adapterBasePath o)) = Js.Ok markup ->
  includes (newFileName file) nl = false ->
  Z.of_nat (String.length
              (take (Nat.min (selFrom (editor w)) (selTo (editor w))) (doc (editor w))))
    = indexOf (doc (replaceSelection (editor w) (pastePlaceText (newFileName file))))
              (placeholder (newFileName file)) ->
  editor (upload o settings fm file type w) =
    {| doc := take (Nat.min (selFrom (editor w)) (selTo (editor w))) (doc (editor w))
              +:+ markup +:+ nl
              +:+ drop (Nat.max (selFrom (editor w)) (selTo (editor w))) (doc (editor w));
       selFrom := String.length
                    (take (Nat.min (selFrom (editor w)) (selTo (editor w)))
                          (doc (editor w)));
       selTo := String.length
                  (take (Nat.min (selFrom (editor w)) (selTo (editor w)))
                        (doc (editor w))) |} /\
  notices (upload o settings fm file type w) =
    notices w ++ ["Image uploaded to "
                  +:+ Js.toString (localUploadFolder settings fm) +:+ " folder"].
Proof.
  intros Hidle Hl Hm Hw Hwrap Hk Hfirst.
  unfold upload. rewrite Hl. cbn [negb]. unfold uploadLocal. rewrite Hm, Hw.
  unfold seqA. cbv beta zeta.
  match goal with
  | |- context [onFulfilled ?loc ?ty ?base ?pt ?dn ?rej ?w0] =>
      destruct (onFulfilled_ok loc ty base pt dn rej markup w0 Hwrap) as [He Hn]
  end.
  rewrite He, Hn. autorewrite with world. rewrite !Hidle.
  split; [|reflexivity].
  apply insert_then_reconcile; assumption.
Qed.

Lemma local_upload_round_trip_witness :
  editor (upload allFine localSettings None
            {| File.name := "talk.mp3"; File.type := "audio/mpeg"; File.bytes := [] |}
            "audio" helloWorld) =
    {| doc := "Hello<audio src=" +:+ dq
              +:+ "file:///vault/media/d41d8cd98f00b204e9800998ecf8427e.mp3"
              +:+ dq +:+ " controls />" +:+ nl;
       selFrom := 5; selTo := 5 |} /\
  notices (upload allFine localSettings None
             {| File.name := "talk.mp3"; File.type := "audio/mpeg"; File.bytes := [] |}
             "audio" helloWorld) =
    ["Image uploaded to media folder"].
Proof.
  apply (local_upload_round_trip allFine localSettings None
           {| File.name := "talk.mp3"; File.type := "audio/mpeg"; File.bytes := [] |}
           "audio"
           ("<audio src=" +:+ dq
            +:+ "file:///vault/media/d41d8cd98f00b204e9800998ecf8427e.mp3"
            +:+ dq +:+ " controls />")
           helloWorld).
  - intros io ed. reflexivity.
  - vm_compute. reflexivity.
  - reflexivity.
  - reflexivity.
  - vm_compute. reflexivity.
  - vm_compute. reflexivity.
  - vm_compute. reflexivity.
Defined.

(** X4: when markup generation refuses a local PDF, the placeholder is
    taken out again but the newline written with it stays in the note, and
    the one notice shown carries the error's message. *)
Theorem refused_local_pdf_leaves_newline (o : Outcomes) (settings : Settings.t)
    (fm : Frontmatter) (file : File.t) (base : string) (w : World) :
  idle o ->
  Js.truthy (localUpload settings fm) = true ->
  mkdirOutcome o = None ->
  writeOutcome o = None ->
  adapterBasePath o = Some base ->
  base <> "" ->
  includes (newFileName file) nl = false ->
  Z.of_nat (String.length
              (take (Nat.min (selFrom (editor w)) (selTo (editor w))) (doc (editor w))))
    = indexOf (doc (replaceSelection (editor w) (pastePlaceText (newFileName file))))
              (placeholder (newFileName file)) ->
  editor (upload o settings fm file "pdf" w) =
    {| doc := take (Nat.min (selFrom (editor w)) (selTo (editor w))) (doc (editor w))
              +:+ nl
              +:+ drop (Nat.max (selFrom (editor w)) (selTo (editor w))) (doc (editor w));
       selFrom := String.length
                    (take (Nat.min (selFrom (editor w)) (selTo (editor w)))
                          (doc (editor w)));
       selTo := String.length
                  (take (Nat.min (selFrom (editor w)) (selTo (editor w)))
                        (doc (editor w))) |} /\
  notices (upload o settings fm file "pdf" w) =
    notices w ++ ["Error uploading image to "
                  +:+ Js.toString (localUploadFolder settings fm)
                  +:+ " folder: PDFs cannot be embedded in local mode"].
Proof.
  intros Hidle Hl Hm Hw Hb Hne Hk Hfirst.
  unfold upload. rewrite Hl. cbn [negb]. unfold uploadLocal. rewrite Hm, Hw, Hb.
  cbn [default from_option]. unfold onFulfilled.
  rewrite (wrap_pdf_with_base_path _ _ Hne). unfold seqA. cbv beta zeta.
  autorewrite with world. rewrite !Hidle. split; [|reflexivity].
  exact (insert_then_reconcile (editor w) (newFileName file) "" Hk Hfirst).
Qed.

Lemma refused_local_pdf_leaves_newline_witness :
  editor (upload allFine localSettings None pdfFile "pdf" helloWorld) =
    {| doc := "Hello" +:+ nl; selFrom := 5; selTo := 5 |} /\
  notices (upload allFine localSettings None pdfFile "pdf" helloWorld) =
    ["Error uploading image to media folder: PDFs cannot be embedded in local mode"].
Proof.
  apply (refused_local_pdf_leaves_newline allFine localSettings None pdfFile "/vault"
           helloWorld).
  - intros io ed. reflexivity.
  - vm_compute. reflexivity.
  - reflexivity.
  - reflexivity.
  - reflexivity.
  - discriminate.
  - vm_compute. reflexivity.
  - vm_compute. reflexivity.
Defined.

(** ** What the handler leaves alone *)

(** X5: the handler does nothing at all, neither to the event nor to the
    note, when the event was already handled, when no note with a name is
    active, when the event is neither a paste nor a drop, when it carries no
    file, or when it is a drop while upload on drag is off both globally and
    in the note. *)
Theorem unclaimed_events_untouched (o : Outcomes) (settings : Settings.t)
    (noteFile : option string) (fm : Frontmatter) (ev : Event.t) (w : World) :
  defaultPrevented w = true \/
  noteFile = None \/
  noteFile = Some "" \/
  (Event.type ev <> "paste" /\ Event.type ev <> "drop") \/
  firstFile (Event.files ev) = None \/
  (Event.type ev = "drop" /\ Settings.uploadOnDrag settings = false /\
   Js.truthy (fmUploadOnDrag fm) = false) ->
  pasteHandler o settings noteFile fm ev w = w.
Proof.
  intros H. unfold pasteHandler.
  assert (intake settings noteFile fm ev w = None) as ->; [|reflexivity].
  unfold intake.
  destruct (defaultPrevented w) eqn:Ep; [reflexivity|].
  destruct noteFile as [noteName|]; [|reflexivity].
  destruct (Js.truthy (Js.Str noteName)) eqn:En; cbn [negb]; [|reflexivity].
  destruct H as [H|[H|[H|[[Hp Hd]|[H|[Hd [Hu Hf]]]]]]].
  - discriminate.
  - discriminate.
  - injection H as ->. discriminate.
  - apply String.eqb_neq in Hp, Hd. rewrite Hp, Hd. reflexivity.
  - rewrite H. destruct (String.eqb (Event.type ev) "paste"); [reflexivity|].
    destruct (String.eqb (Event.type ev) "drop"); [|reflexivity].
    destruct (negb (Settings.uploadOnDrag settings) && negb (Js.truthy (fmUploadOnDrag fm)));
      reflexivity.
  - rewrite Hd, Hu, Hf. reflexivity.
Qed.

Lemma unclaimed_events_untouched_witness :
  pasteHandler allFine
    (setFolder
       {| Settings.accessKey := ""; Settings.secretKey := ""; Settings.region := "";
          Settings.bucket := ""; Settings.folder := ""; Settings.imageUrlPath := "";
          Settings.uploadOnDrag := false; Settings.localUpload := false;
          Settings.localUploadFolder := ""; Settings.endpoint := "";
          Settings.forcePathStyle := false; Settings.uploadVideo := true;
          Settings.uploadAudio := false; Settings.uploadPdf := false;
          Settings.public := true |} "")
    (Some "note.md") None
    {| Event.type := "drop";
       Event.files := Some [ {| File.name := "clip.mp4"; File.type := "video/mp4";
                                File.bytes := [] |} ] |}
    helloWorld = helloWorld.
Proof.
  apply unclaimed_events_untouched.
  right. right. right. right. right. repeat split; reflexivity.
Defined.

(** ** One sink, one attempt, one notice *)

(** X6: an upload uses one sink and tries at most once.  In remote mode
    the trace holds no operation on the vault and at most one send to the
    bucket, whether the send succeeds or not, and no send at all when the
    region is empty, since the client cannot be built; in local mode it
    holds no send to the bucket, exactly one [mkdir] and at most one
    write. *)
Theorem one_sink_one_attempt (o : Outcomes) (settings : Settings.t)
    (fm : Frontmatter) (file : File.t) (type : string) (w : World) :
  exists delta,
    log (upload o settings fm file type w) = log w ++ delta /\
    if Js.truthy (localUpload settings fm)
    then List.existsb isBucketOperation delta = false /\
         List.length (List.filter isMkdir delta) = 1 /\
         List.length (List.filter isWriteBinary delta) <= 1
    else List.existsb isVaultOperation delta = false /\
         List.length (List.filter isBucketOperation delta)
           <= if String.eqb (Settings.region settings) "" then 0 else 1.
Proof.
  unfold upload. destruct (Js.truthy (localUpload settings fm)); cbn [negb].
  - unfold uploadLocal. destruct (mkdirOutcome o) as [message|].
    + eexists. split; [run_actions; flatten_log; reflexivity|].
      split; [reflexivity | split; [reflexivity | cbn; lia]].
    + destruct (writeOutcome o) as [message|].
      * eexists. split; [run_actions; flatten_log; reflexivity|].
        split; [reflexivity | split; [reflexivity | cbn; lia]].
      * unfold onFulfilled. destruct (wrapFileDependingOnType _ _ _).
        -- eexists. split; [run_actions; flatten_log; reflexivity|].
           split; [reflexivity | split; [reflexivity | cbn; lia]].
        -- eexists. split; [run_actions; flatten_log; reflexivity|].
           split; [reflexivity | split; [reflexivity | cbn; lia]].
  - unfold uploadRemote, newS3Client. cbn [Js.truthy].
    destruct (String.eqb (Settings.region settings) "") eqn:Er; cbn [negb].
    + eexists. split; [run_actions; flatten_log; reflexivity|].
      split; [reflexivity | cbn; lia].
    + destruct (sendOutcome o) as [message|].
      * eexists. split; [run_actions; flatten_log; reflexivity|].
        split; [reflexivity | cbn; lia].
      * unfold onFulfilled. destruct (wrapFileDependingOnType _ _ _).
        -- eexists. split; [run_actions; flatten_log; reflexivity|].
           split; [reflexivity | cbn; lia].
        -- eexists. split; [run_actions; flatten_log; reflexivity|].
           split; [reflexivity | cbn; lia].
Qed.

(** X7: an upload shows at most one notice, and exactly one, of success or
    of failure, when it got as far as starting the send or the write: no
    notice is shown when the client cannot be built or the [mkdir] is
    refused. *)
Theorem one_notice_per_upload (o : Outcomes) (settings : Settings.t)
    (fm : Frontmatter) (file : File.t) (type : string) (w : World) :
  exists delta shown,
    log (upload o settings fm file type w) = log w ++ delta /\
    notices (upload o settings fm file type w) = notices w ++ shown /\
    List.length shown = if List.existsb reachesSink delta then 1 else 0.
Proof.
  unfold upload. destruct (Js.truthy (localUpload settings fm)); cbn [negb].
  - unfold uploadLocal. destruct (mkdirOutcome o) as [message|].
    + eexists. exists []. split; [run_actions; flatten_log; reflexivity|].
      split; [run_actions; rewrite List.app_nil_r; reflexivity | reflexivity].
    + destruct (writeOutcome o) as [message|].
      * eexists. eexists. split; [run_actions; flatten_log; reflexivity|].
        split; [run_actions; reflexivity | reflexivity].
      * unfold onFulfilled. destruct (wrapFileDependingOnType _ _ _).
        -- eexists. eexists. split; [run_actions; flatten_log; reflexivity|].
           split; [run_actions; reflexivity | reflexivity].
        -- eexists. eexists. split; [run_actions; flatten_log; reflexivity|].
           split; [run_actions; reflexivity | reflexivity].
  - unfold uploadRemote. destruct (newS3Client settings) as [[]|refusal].
    + destruct (sendOutcome o) as [message|].
      * eexists. eexists. split; [run_actions; flatten_log; reflexivity|].
        split; [run_actions; reflexivity | reflexivity].
      * unfold onFulfilled. destruct (wrapFileDependingOnType _ _ _).
        -- eexists. eexists. split; [run_actions; flatten_log; reflexivity|].
           split; [run_actions; reflexivity | reflexivity].
        -- eexists. eexists. split; [run_actions; flatten_log; reflexivity|].
           split; [run_actions; reflexivity | reflexivity].
    + eexists. exists []. split; [run_actions; flatten_log; reflexivity|].
      split; [run_actions; rewrite List.app_nil_r; reflexivity | reflexivity].
Qed.

(** X8: when the [mkdir] of a local upload is refused the handler stops
    with an unhandled rejection: nothing is written, no notice is shown, and
    the placeholder that was inserted stays in the note. *)
Theorem refused_mkdir_is_unhandled (o : Outcomes) (settings : Settings.t)
    (fm : Frontmatter) (file : File.t) (type message : string) (w : World) :
  idle o ->
  Js.truthy (localUpload settings fm) = true ->
  mkdirOutcome o = Some message ->
  log (upload o settings fm file type w) =
    log w ++ [ PreventDefault;
               Suspend (ReadArrayBuffer (File.name file));
               ReplaceSelection (pastePlaceText (newFileName file));
               Suspend (Mkdir (Js.toString (localUploadFolder settings fm)));
               Unhandled message ] /\
  notices (upload o settings fm file type w) = notices w /\
  editor (upload o settings fm file type w)
    = replaceSelection (editor w) (pastePlaceText (newFileName file)) /\
  includes (doc (editor (upload o settings fm file type w)))
           (placeholder (newFileName file)) = true.
Proof.
  intros Hidle Hl Hm. unfold upload. rewrite Hl. cbn [negb].
  unfold uploadLocal. rewrite Hm. unfold seqA. cbv beta zeta.
  autorewrite with world. rewrite !Hidle.
  split; [flatten_log; reflexivity|]. split; [reflexivity|]. split; [reflexivity|].
  apply includes_spec. rewrite replaceSelection_doc, pastePlaceText_placeholder.
  rewrite !app_assoc. eexists. eexists. reflexivity.
Qed.

Lemma refused_mkdir_is_unhandled_witness :
  notices (upload
             {| sendOutcome := None; mkdirOutcome := Some "EROFS"; writeOutcome := None;
                adapterBasePath := Some "/vault"; whileSuspended := fun _ ed => ed |}
             localSettings None (pngFile "a.png") "image" helloWorld) = [].
Proof.
  apply (refused_mkdir_is_unhandled
           {| sendOutcome := None; mkdirOutcome := Some "EROFS"; writeOutcome := None;
              adapterBasePath := Some "/vault"; whileSuspended := fun _ ed => ed |}
           localSettings None (pngFile "a.png") "image" "EROFS" helloWorld).
  - intros io ed. reflexivity.
  - vm_compute. reflexivity.
  - reflexivity.
Defined.

(** ** Kinds and markup *)

Lemma thisType_values file v a p :
  thisType file v a p = "video" \/ thisType file v a p = "audio" \/
  thisType file v a p = "pdf" \/ thisType file v a p = "image" \/
  thisType file v a p = "".
Proof.
  unfold thisType.
  repeat match goal with
         | |- context [if ?b then _ else _] => destruct b
         end; auto.
Qed.

(** X9: the kind of a claimed event is one of video, audio, pdf and image,
    its file is the first of the payload, and for such a kind markup
    generation without a base path cannot fail: in remote mode the handler
    never takes the branch that removes the placeholder. *)
Theorem claimed_kind_has_remote_markup (settings : Settings.t)
    (noteFile : option string) (fm : Frontmatter) (ev : Event.t) (w : World)
    (file : File.t) (type : string) :
  intake settings noteFile fm ev w = Some (file, type) ->
  firstFile (Event.files ev) = Some file /\
  (type = "video" \/ type = "audio" \/ type = "pdf" \/ type = "image") /\
  forall location,
    exists markup, wrapFileDependingOnType location type "" = Js.Ok markup.
Proof.
  intros H. unfold intake in H.
  destruct (defaultPrevented w); [discriminate|].
  destruct noteFile as [noteName|]; [|discriminate].
  destruct (negb (Js.truthy (Js.Str noteName))); [discriminate|].
  assert (forall picked : option (option File.t),
             match picked with
             | Some f0 =>
                 match f0 with
                 | Some f =>
                     if Js.truthy (Js.Str (thisType f0 (uploadVideo settings fm)
                                             (uploadAudio settings fm)
                                             (uploadPdf settings fm)))
                     then Some (f, thisType f0 (uploadVideo settings fm)
                                     (uploadAudio settings fm) (uploadPdf settings fm))
                     else None
                 | None => None
                 end
             | None => None
             end = Some (file, type) ->
             (picked = Some (Some file)) /\
             (type = "video" \/ type = "audio" \/ type = "pdf" \/ type = "image"))
    as Hpick.
  { intros [[f|]|] Hp; try discriminate.
    destruct (thisType_values (Some f) (uploadVideo settings fm)
                (uploadAudio settings fm) (uploadPdf settings fm))
      as [E|[E|[E|[E|E]]]]; rewrite E in Hp; cbn in Hp; try discriminate;
      injection Hp as Hf Ht; subst; split; auto. }
  apply Hpick in H as [Hp Hkind].
  split; [|split; [exact Hkind|]].
  - destruct (String.eqb (Event.type ev) "paste").
    + injection Hp as Hp. exact Hp.
    + destruct (String.eqb (Event.type ev) "drop"); [|discriminate].
      destruct (negb (Settings.uploadOnDrag settings)
                && negb (Js.truthy (fmUploadOnDrag fm))); [discriminate|].
      injection Hp as Hp. exact Hp.
  - intros location. destruct Hkind as [-> | [-> | [-> | ->]]]; eexists; reflexivity.
Qed.

Lemma claimed_kind_has_remote_markup_witness :
  firstFile (Event.files (pasteOf pdfFile)) = Some pdfFile /\
  ("pdf" = "video" \/ "pdf" = "audio" \/ "pdf" = "pdf" \/ "pdf" = "image") /\
  forall location,
    exists markup, wrapFileDependingOnType location "pdf" "" = Js.Ok markup.
Proof.
  apply (claimed_kind_has_remote_markup bucketSettings (Some "note.md") None
           (pasteOf pdfFile) helloWorld pdfFile "pdf").
  vm_compute. reflexivity.
Defined.

(** X10: markup generation fails in two cases only: for a pdf with a
    non-empty base path, with the message about local mode, and for a type
    that is none of the four kinds, with the message about the unknown
    type. *)
Theorem markup_errors (location type localBase message : string) :
  wrapFileDependingOnType location type localBase = Js.Throw message ->
  (type = "pdf" /\ localBase <> "" /\
   message = "PDFs cannot be embedded in local mode") \/
  (type <> "image" /\ type <> "video" /\ type <> "audio" /\ type <> "pdf" /\
   message = "Unknown file type").
Proof.
  unfold wrapFileDependingOnType. intros H.
  destruct (String.eqb type "image") eqn:Ei; [discriminate|].
  destruct (String.eqb type "video") eqn:Ev; [discriminate|].
  destruct (String.eqb type "audio") eqn:Ea; [discriminate|].
  destruct (String.eqb type "pdf") eqn:Ep.
  - left. apply String.eqb_eq in Ep.
    destruct localBase as [|b base]; [discriminate|].
    cbn in H. injection H as <-. split; [exact Ep|]. split; [discriminate | reflexivity].
  - right. injection H as <-.
    apply String.eqb_neq in Ei, Ev, Ea, Ep. auto.
Qed.

Lemma markup_errors_witness :
  ("gif" = "pdf" /\ "/vault" <> "" /\
   "Unknown file type" = "PDFs cannot be embedded in local mode") \/
  ("gif" <> "image" /\ "gif" <> "video" /\ "gif" <> "audio" /\ "gif" <> "pdf" /\
   "Unknown file type" = "Unknown file type").
Proof.
  apply (markup_errors "x.gif" "gif" "/vault" "Unknown file type"). reflexivity.
Defined.

(** X11: every markup that is generated embeds the location it was given,
    unchanged. *)
Theorem markup_embeds_location (location type localBase markup : string) :
  wrapFileDependingOnType location type localBase = Js.Ok markup ->
  includes markup location = true.
Proof.
  unfold wrapFileDependingOnType. intros H. apply includes_spec.
  set (srcPrefix := if Js.truthy (Js.Str localBase)
                    then "file://" +:+ localBase +:+ "/" else "") in *.
  destruct (String.eqb type "image").
  { injection H as <-. exists "![image](", ")". reflexivity. }
  destruct (String.eqb type "video").
  { injection H as <-.
    exists ("<video src=" +:+ dq +:+ srcPrefix), (dq +:+ " controls />").
    rewrite !app_assoc. reflexivity. }
  destruct (String.eqb type "audio").
  { injection H as <-.
    exists ("<audio src=" +:+ dq +:+ srcPrefix), (dq +:+ " controls />").
    rewrite !app_assoc. reflexivity. }
  destruct (String.eqb type "pdf"); [|discriminate].
  destruct (Js.truthy (Js.Str localBase)); [discriminate|].
  injection H as <-.
  exists ("<iframe frameborder=0 border=0 width=100% height=800" +:+ nl +:+
          String "009" ("src=" +:+ dq +:+ "https://docs.google.com/viewer?url=")),
         ("?raw=true" +:+ dq +:+ ">" +:+ nl +:+ "</iframe>").
  rewrite !app_assoc. reflexivity.
Qed.

Lemma markup_embeds_location_witness :
  includes ("<video src=" +:+ dq +:+ "file:///vault/media/clip.mp4" +:+ dq +:+ " controls />")
           "media/clip.mp4" = true.
Proof.
  apply (markup_embeds_location "media/clip.mp4" "video" "/vault"). reflexivity.
Defined.

(** ** The endpoint field *)

Lemma trimStart_app_other pre b t :
  isWhite b = false ->
  trimStart (pre +:+ String b t) = trimStart pre +:+ String b t.
Proof.
  intros Hb. induction pre as [|a pre IH].
  - rewrite app_nil_l. cbn [trimStart]. rewrite Hb. reflexivity.
  - rewrite app_cons. cbn [trimStart]. destruct (isWhite a).
    + exact IH.
    + rewrite app_cons. reflexivity.
Qed.

Lemma trimStart_idempotent s : trimStart (trimStart s) = trimStart s.
Proof.
  induction s as [|a s IH]; [reflexivity|].
  cbn [trimStart]. destruct (isWhite a) eqn:Ea; [exact IH|].
  cbn [trimStart]. rewrite Ea. reflexivity.
Qed.

Lemma lastChar_snoc s a : lastChar (s +:+ String a "") = Some a.
Proof.
  induction s as [|b s IH]; [reflexivity|].
  rewrite app_cons. cbn [lastChar]. rewrite IH.
  destruct (s +:+ String a "") eqn:E; [|reflexivity].
  destruct s; discriminate.
Qed.

Lemma lastChar_Some s a : lastChar s = Some a -> exists r, s = r +:+ String a "".
Proof.
  induction s as [|b s IH]; [discriminate|].
  destruct s as [|c s].
  - cbn. intros H. injection H as ->. exists "". reflexivity.
  - intros H. change (lastChar (String c s) = Some a) in H.
    destruct (IH H) as [r Hr]. exists (String b r). rewrite app_cons, <- Hr. reflexivity.
Qed.

Lemma lastChar_None s : lastChar s = None -> s = "".
Proof.
  induction s as [|b s IH]; [reflexivity|].
  destruct s as [|c s]; [discriminate|].
  intros H. change (lastChar (String c s) = None) in H.
  apply IH in H. discriminate.
Qed.

(** A text that ends with a slash keeps it through [trim], and loses only
    its leading white space. *)
Lemma trim_slash_end r : trim (r +:+ "/") = trimStart r +:+ "/".
Proof.
  unfold trim. rewrite (trimStart_app_other r "/" "") by reflexivity.
  apply trimEnd_snoc_other. reflexivity.
Qed.

Lemma forceScheme_includes value :
  includes (forceScheme value) "http://" || includes (forceScheme value) "https://"
    = true.
Proof.
  unfold forceScheme.
  destruct (includes value "http://" || includes value "https://") eqn:E; [exact E|].
  apply orb_true_iff. right. apply includes_spec. exists "", value. reflexivity.
Qed.

Lemma forceScheme_not_empty value : forceScheme value <> "".
Proof.
  intros H. pose proof (forceScheme_includes value) as Hi. rewrite H in Hi.
  discriminate.
Qed.

Lemma forceTrailingSlash_ends value :
  value <> "" -> exists r, forceTrailingSlash value = r +:+ "/".
Proof.
  intros Hne. unfold forceTrailingSlash.
  destruct (lastChar value) as [c|] eqn:E.
  - destruct (Ascii.eqb c "/") eqn:Ec.
    + apply Ascii.eqb_eq in Ec as ->. apply lastChar_Some. exact E.
    + exists value. reflexivity.
  - apply lastChar_None in E. contradiction.
Qed.

Lemma forceTrailingSlash_extends value :
  exists tail, forceTrailingSlash value = value +:+ tail.
Proof.
  unfold forceTrailingSlash. destruct (lastChar value) as [c|].
  - destruct (Ascii.eqb c "/"); [exists ""; rewrite app_nil_r | exists "/"]; reflexivity.
  - exists "". rewrite app_nil_r. reflexivity.
Qed.

Lemma forceTrailingSlash_fixed r : forceTrailingSlash (r +:+ "/") = r +:+ "/".
Proof. unfold forceTrailingSlash. rewrite lastChar_snoc. reflexivity. Qed.

Lemma includes_app_r s t tail : includes s t = true -> includes (s +:+ tail) t = true.
Proof.
  intros H. apply includes_spec in H as [pre [post H]]. apply includes_spec.
  exists pre, (post +:+ tail). rewrite H, !app_assoc. reflexivity.
Qed.

Lemma includes_trimStart s b t :
  isWhite b = false ->
  includes s (String b t) = true -> includes (trimStart s) (String b t) = true.
Proof.
  intros Hb H. apply includes_spec in H as [pre [post H]]. apply includes_spec.
  exists (trimStart pre), post. rewrite H.
  rewrite (app_cons b t post). apply trimStart_app_other. exact Hb.
Qed.

(** The stored endpoint in terms of the value with scheme and slash. *)
Lemma endpointOnChange_trimStart value :
  endpointOnChange value = trimStart (forceTrailingSlash (forceScheme value)) /\
  exists r, endpointOnChange value = trimStart r +:+ "/".
Proof.
  unfold endpointOnChange.
  destruct (forceTrailingSlash_ends _ (forceScheme_not_empty value)) as [r Hr].
  rewrite Hr, trim_slash_end. split.
  - rewrite (trimStart_app_other r "/" "") by reflexivity. reflexivity.
  - exists r. reflexivity.
Qed.

(** X12: whatever is typed into the endpoint field, the stored endpoint
    ends with a slash and holds [http://] or [https://] somewhere, and
    typing the stored endpoint again stores it unchanged. *)
Theorem endpoint_normal_form (value : string) :
  (exists r, endpointOnChange value = r +:+ "/") /\
  includes (endpointOnChange value) "http://"
    || includes (endpointOnChange value) "https://" = true /\
  endpointOnChange (endpointOnChange value) = endpointOnChange value.
Proof.
  destruct (endpointOnChange_trimStart value) as [E [r Hr]].
  assert (includes (endpointOnChange value) "http://"
          || includes (endpointOnChange value) "https://" = true) as Hs.
  { rewrite E. pose proof (forceScheme_includes value) as Hi.
    destruct (forceTrailingSlash_extends (forceScheme value)) as [tail ->].
    apply orb_true_iff in Hi as [Hi|Hi]; apply orb_true_iff; [left|right];
      apply includes_trimStart; try reflexivity; apply includes_app_r; exact Hi. }
  split; [exists (trimStart r); exact Hr|]. split; [exact Hs|].
  unfold endpointOnChange at 1. unfold forceScheme. rewrite Hs.
  rewrite Hr, forceTrailingSlash_fixed, trim_slash_end, trimStart_idempotent.
  reflexivity.
Qed.

(** X13: a value without scheme is stored behind [https://] as it was
    typed, leading and inner white space included, with a slash added
    unless the value is empty or ends with one: the trimming comes after
    the prefix and so cannot reach the start of the value. *)
Theorem endpoint_without_scheme (value : string) :
  includes value "http://" = false ->
  includes value "https://" = false ->
  endpointOnChange value =
    "https://" +:+ value +:+
    match lastChar value with
    | Some c => if Ascii.eqb c "/" then "" else "/"
    | None => ""
    end.
Proof.
  intros H1 H2. destruct (endpointOnChange_trimStart value) as [E _].
  rewrite E. unfold forceScheme. rewrite H1, H2. cbn [orb].
  assert (forall x, trimStart ("https://" +:+ x) = "https://" +:+ x) as Hts
    by reflexivity.
  unfold forceTrailingSlash.
  destruct (lastChar value) as [c|] eqn:El.
  - destruct (lastChar_Some _ _ El) as [r ->].
    rewrite <- app_assoc, lastChar_snoc.
    destruct (Ascii.eqb c "/").
    + rewrite app_nil_r, !app_assoc. apply Hts.
    + rewrite !app_assoc. apply Hts.
  - apply lastChar_None in El. subst value. reflexivity.
Qed.

Lemma endpoint_without_scheme_witness :
  endpointOnChange " s3.my host.com" = "https:// s3.my host.com/".
Proof.
  apply (endpoint_without_scheme " s3.my host.com"); vm_compute; reflexivity.
Defined.

(** ** The bucket folder field *)

Lemma trimStart_blank s :
  forallb isWhite (list_ascii_of_string s) = true -> trimStart s = "".
Proof.
  induction s as [|a s IH]; [reflexivity|].
  cbn [list_ascii_of_string forallb trimStart].
  intros H. apply andb_true_iff in H as [Ha Hs]. rewrite Ha. apply IH. exact Hs.
Qed.

(** X14: a bucket folder typed as white space only is stored empty and
    then counts as no folder: unless the note names a folder, the object is
    stored under the bare content key, without a slash before it. *)
Theorem blank_folder_gives_bare_key (settings : Settings.t) (value : string)
    (fm : Frontmatter) (newFileName : string) :
  forallb isWhite (list_ascii_of_string value) = true ->
  Js.truthy (fmUploadFolder fm) = false ->
  Settings.folder (setFolder settings value) = "" /\
  key (setFolder settings value) fm newFileName = newFileName.
Proof.
  intros Hblank Hfm.
  assert (trim value = "") as Ht by (unfold trim; rewrite trimStart_blank; auto).
  unfold key, folder, Js.orElse, underFolder. rewrite Hfm.
  cbn [setFolder Settings.folder]. rewrite Ht. split; reflexivity.
Qed.

Lemma blank_folder_gives_bare_key_witness :
  Settings.folder (setFolder bucketSettings "   ") = "" /\
  key (setFolder bucketSettings "   ") None "k.png" = "k.png".
Proof.
  apply (blank_folder_gives_bare_key bucketSettings "   " None "k.png");
    reflexivity.
Defined.

(** ** The password hider *)

(** X15: once the hider is in place the secret is masked and the icon is
    the closed eye, and every click toggles both: after an even number of
    clicks the field is a password field with the closed eye, after an odd
    number a text field with the open eye, whatever the element was before. *)
Theorem hider_toggles (el : SecretInput) (n : nat) :
  typeAttribute (clicks n (wrapTextWithPasswordHide true el))
    = Some (if Nat.even n then "password" else "text") /\
  hiderIcon (clicks n (wrapTextWithPasswordHide true el))
    = Some (if Nat.even n then "eye-off" else "eye").
Proof.
  induction n as [|n [IHt IHi]]; [split; reflexivity|].
  cbn [clicks]. unfold hiderClick. rewrite IHt.
  rewrite Nat.even_succ, <- Nat.negb_even.
  destruct (Nat.even n); split; reflexivity.
Qed.

(** ** Loading the settings *)

(** X16: after [loadSettings] each of the fifteen settings has a value; a
    saved value, falsy or not, takes the place of the default, and a
    setting that was not saved has its default; with nothing saved the
    settings are the defaults, and loading what was loaded changes
    nothing. *)
Theorem loadSettings_fills_defaults (data : option (gmap string Js.Value)) :
  Forall (fun name => is_Some (loadSettings data !! name)) settingNames /\
  (forall name : string,
      loadSettings data !! name =
        match data ≫= (fun m => m !! name) with
        | Some v => Some v
        | None => settingsObject DEFAULT_SETTINGS !! name
        end) /\
  loadSettings None = settingsObject DEFAULT_SETTINGS /\
  loadSettings (Some (loadSettings data)) = loadSettings data.
Proof.
  unfold loadSettings. split; [|split; [|split]].
  - unfold settingNames.
    repeat (apply Forall_cons; split;
            [apply lookup_union_is_Some; right; eexists; vm_compute; reflexivity|]).
    apply Forall_nil. exact I.
  - generalize (settingsObject DEFAULT_SETTINGS). intros D name.
    rewrite lookup_union. destruct data as [m|]; simpl.
    + destruct (m !! name) as [v|]; destruct (D !! name); reflexivity.
    + rewrite lookup_empty. destruct (D !! name); reflexivity.
  - generalize (settingsObject DEFAULT_SETTINGS). intros D.
    simpl. apply (left_id_L ∅ (∪)).
  - generalize (settingsObject DEFAULT_SETTINGS). intros D.
    simpl. rewrite <- (assoc_L (∪)). rewrite (idemp_L (∪)).
    reflexivity.
Qed.

(** ** The shape of the content key *)

Lemma allChars_app p s t : allChars p (s +:+ t) = allChars p s && allChars p t.
Proof.
  induction s as [|a s IH]; [reflexivity|].
  rewrite app_cons. cbn [allChars]. rewrite IH. apply andb_assoc.
Qed.

Lemma allChars_excludes p s c :
  allChars p s = true -> p c = false -> includes s (String c "") = false.
Proof.
  intros Hs Hc. induction s as [|a s IH]; [reflexivity|].
  cbn [allChars] in Hs. apply andb_true_iff in Hs as [Ha Hs].
  cbn [includes]. rewrite (IH Hs), orb_false_r.
  apply not_true_is_false. intros H. apply startsWith_cons in H as [-> _].
  congruence.
Qed.

Lemma indexOf_behind_prefix d c rest :
  includes d (String c "") = false ->
  indexOf (d +:+ String c rest) (String c "") = Z.of_nat (String.length d).
Proof.
  intros Hd. induction d as [|a d IH].
  - rewrite app_nil_l, indexOf_cons.
    assert (startsWith (String c rest) (String c "") = true) as ->
      by (apply startsWith_cons; split; [reflexivity | apply startsWith_nil]).
    reflexivity.
  - pose proof (no_char_head _ _ _ Hd) as Hne.
    cbn [includes] in Hd. apply orb_false_iff in Hd as [_ Hd].
    rewrite app_cons, indexOf_cons, (IH Hd).
    assert (startsWith (String a (d +:+ String c rest)) (String c "") = false) as ->.
    { apply not_true_is_false. intros H. apply startsWith_cons in H as [-> _].
      contradiction. }
    destruct (Z.of_nat (String.length d) =? -1)%Z eqn:E;
      [apply Z.eqb_eq in E; lia|]. cbn [String.length]. lia.
Qed.

Lemma hexDigit_hex n : (0 <= n < 16)%Z -> isLowerHex (Md5.hexDigit n) = true.
Proof.
  intros H.
  assert (forallb (fun i => isLowerHex (Md5.hexDigit (Z.of_nat i))) (seq 0 16) = true)
    as Hall by reflexivity.
  rewrite forallb_forall in Hall. specialize (Hall (Z.to_nat n)).
  rewrite Z2Nat.id in Hall by lia. apply Hall. apply in_seq. lia.
Qed.

Lemma hexByte_hex b :
  (0 <= b < 256)%Z -> allChars isLowerHex (Md5.hexByte b) = true.
Proof.
  intros H. unfold Md5.hexByte. cbn [allChars].
  rewrite !hexDigit_hex; [reflexivity | |].
  - pose proof (Z.mod_pos_bound b 16). lia.
  - split; [apply Z.div_pos; lia | apply Z.div_lt_upper_bound; lia].
Qed.

Lemma hexWord_hex w :
  allChars isLowerHex (Md5.hexWord w) = true /\ String.length (Md5.hexWord w) = 8.
Proof.
  unfold Md5.hexWord. split.
  - rewrite !allChars_app, !hexByte_hex; [reflexivity | | | |];
      apply Z.mod_pos_bound; lia.
  - rewrite !length_app. reflexivity.
Qed.

Lemma digest_hex bytes :
  allChars isLowerHex (Md5.digest bytes) = true /\
  String.length (Md5.digest bytes) = 32.
Proof.
  unfold Md5.digest.
  destruct (Md5.blocks _ Md5.init _) as [[[a b] c] d].
  destruct (hexWord_hex a) as [Ha La], (hexWord_hex b) as [Hb Lb],
    (hexWord_hex c) as [Hc Lc], (hexWord_hex d) as [Hd Ld].
  split.
  - rewrite !allChars_app, Ha, Hb, Hc, Hd. reflexivity.
  - rewrite !length_app, La, Lb, Lc, Ld. reflexivity.
Qed.

Lemma afterLastDot_None name :
  afterLastDot name = None -> includes name "." = false.
Proof.
  induction name as [|a s IH]; [reflexivity|].
  cbn [afterLastDot]. destruct (afterLastDot s) as [e|]; [discriminate|].
  destruct (Ascii.eqb a ".") eqn:Ea; [discriminate|]. intros _.
  cbn [includes]. rewrite (IH eq_refl), orb_false_r, startsWith_dot. exact Ea.
Qed.

Lemma afterLastDot_no_dot name e :
  afterLastDot name = Some e -> includes e "." = false.
Proof.
  revert e. induction name as [|a s IH]; intros e H; [discriminate|].
  cbn [afterLastDot] in H. destruct (afterLastDot s) as [e'|] eqn:E.
  - injection H as <-. apply IH. reflexivity.
  - destruct (Ascii.eqb a "."); [|discriminate]. injection H as <-.
    apply afterLastDot_None. exact E.
Qed.

(** X17: the content key is thirty-two lowercase hexadecimal digits, a dot,
    and an extension that holds no dot (names shorter than 2^32 characters):
    its only dot stands at index 32, so nothing of the name before its last
    dot, and no second extension, reaches the key. *)
Theorem content_key_one_dot (file : File.t) :
  (Z.of_nat (String.length (File.name file)) < 2 ^ 32)%Z ->
  exists digest extension,
    newFileName file = digest +:+ "." +:+ extension /\
    String.length digest = 32 /\
    allChars isLowerHex digest = true /\
    includes extension "." = false /\
    indexOf (newFileName file) "." = 32%Z /\
    lastIndexOf (newFileName file) "." = 32%Z.
Proof.
  intros Hlen. destruct (digest_hex (File.bytes file)) as [Hhex Hl].
  exists (Md5.digest (File.bytes file)), (extensionOf (File.name file)).
  assert (includes (extensionOf (File.name file)) "." = false) as Hext.
  { rewrite extensionOf_dotted by exact Hlen. unfold dottedExtension.
    destruct (afterLastDot (File.name file)) as [e|] eqn:E; [|reflexivity].
    destruct (_ =? _); [reflexivity|]. apply (afterLastDot_no_dot _ _ E). }
  assert (includes (Md5.digest (File.bytes file)) "." = false) as Hd
    by (apply (allChars_excludes _ _ _ Hhex); reflexivity).
  split; [reflexivity|]. split; [exact Hl|]. split; [exact Hhex|].
  split; [exact Hext|]. unfold newFileName. split.
  - change ("." +:+ extensionOf (File.name file))
      with (String "." (extensionOf (File.name file))).
    rewrite (indexOf_behind_prefix _ _ _ Hd), Hl. reflexivity.
  - rewrite lastIndexOf_dot.
    assert (afterLastDot (Md5.digest (File.bytes file) +:+ "."
                          +:+ extensionOf (File.name file))
            = Some (extensionOf (File.name file))) as ->.
    { generalize (Md5.digest (File.bytes file)). intros d.
      induction d as [|a d IH].
      - rewrite app_nil_l. change ("." +:+ extensionOf (File.name file))
          with (String "." (extensionOf (File.name file))).
        cbn [afterLastDot].
        destruct (afterLastDot (extensionOf (File.name file))) as [e|] eqn:E;
          [|reflexivity].
        pose proof (afterLastDot_length _ _ E).
        assert (includes (extensionOf (File.name file)) "." = true) as Hc.
        { clear - E. revert e E.
          induction (extensionOf (File.name file)) as [|b s IHs]; intros e E;
            [discriminate|].
          cbn [afterLastDot] in E. destruct (afterLastDot s) as [e'|] eqn:E'.
          - apply includes_cons. apply (IHs e'). reflexivity.
          - destruct (Ascii.eqb b ".") eqn:Eb; [|discriminate].
            cbn [includes]. rewrite startsWith_dot, Eb. reflexivity. }
        congruence.
      - rewrite app_cons. cbn [afterLastDot]. rewrite IH. reflexivity. }
    rewrite !length_app, Hl. cbn [String.length]. lia.
Qed.

Lemma content_key_one_dot_witness :
  exists digest extension,
    newFileName (pngFile "archive.tar.gz") = digest +:+ "." +:+ extension /\
    String.length digest = 32 /\
    allChars isLowerHex digest = true /\
    includes extension "." = false /\
    indexOf (newFileName (pngFile "archive.tar.gz")) "." = 32%Z /\
    lastIndexOf (newFileName (pngFile "archive.tar.gz")) "." = 32%Z.
Proof.
  apply (content_key_one_dot (pngFile "archive.tar.gz")). vm_compute. reflexivity.
Defined.

(** ** Edges of reconciliation *)

Lemma trim_blank s :
  forallb isWhite (list_ascii_of_string s) = true -> trim s = "".
Proof. intros H. unfold trim. rewrite trimStart_blank by exact H. reflexivity. Qed.

(** X18: a target that is empty or white space only trims to the empty
    text, which every line holds at column 0: [replaceText] then puts the
    replacement at the very start of the document, takes nothing out, and
    leaves the cursor there. *)
Theorem replaceText_blank_target ed target replacement :
  forallb isWhite (list_ascii_of_string target) = true ->
  replaceText ed target replacement =
    {| doc := replacement +:+ doc ed; selFrom := 0; selTo := 0 |}.
Proof.
  intros H. pose proof (trim_blank _ H) as Ht.
  apply (replaceText_at_indexOf ed target replacement "" (doc ed)).
  - rewrite Ht. reflexivity.
  - rewrite Ht. reflexivity.
  - rewrite Ht. destruct (doc ed); reflexivity.
Qed.

Lemma replaceText_blank_target_witness :
  replaceText {| doc := "Hello" +:+ nl +:+ "there"; selFrom := 8; selTo := 8 |}
              (" " +:+ nl) "X" =
    {| doc := "X" +:+ "Hello" +:+ nl +:+ "there"; selFrom := 0; selTo := 0 |}.
Proof.
  apply (replaceText_blank_target
           {| doc := "Hello" +:+ nl +:+ "there"; selFrom := 8; selTo := 8 |}
           (" " +:+ nl) "X").
  reflexivity.
Defined.

(** X19: when the user takes the placeholder out of the note while the
    object is being sent, a successful upload (a region is set, the send is
    fulfilled) changes nothing in the note: the editor stays as the user
    left it when the send settled, and the success notice is shown all the
    same. *)
Theorem placeholder_deleted_during_send (o : Outcomes) (settings : Settings.t)
    (fm : Frontmatter) (file : File.t) (type markup : string) (w : World) :
  Js.truthy (localUpload settings fm) = false ->
  Settings.region settings <> "" ->
  sendOutcome o = None ->
  wrapFileDependingOnType
    (Settings.imageUrlPath settings +:+ key settings fm (newFileName file)) type ""
    = Js.Ok markup ->
  (forall command ed,
      includes (doc (whileSuspended o (S3Send command) ed))
               (placeholder (newFileName file)) = false) ->
  exists command,
    editor (upload o settings fm file type w) =
      whileSuspended o (S3Send command)
        (whileSuspended o (ReadArrayBuffer (File.name file))
           (replaceSelection
              (whileSuspended o (ReadArrayBuffer (File.name file)) (editor w))
              (pastePlaceText (newFileName file)))) /\
    Key command = key settings fm (newFileName file) /\
    notices (upload o settings fm file type w) =
      notices w ++ ["Image uploaded to S3 bucket: " +:+ Settings.bucket settings].
Proof.
  intros Hl Hr Hs Hwrap Hgone.
  unfold upload. rewrite Hl. cbn [negb]. unfold uploadRemote.
  rewrite (newS3Client_region _ Hr), Hs.
  unfold seqA. cbv beta zeta.
  match goal with
  | |- context [onFulfilled ?loc ?ty ?base ?pt ?dn ?rej ?w0] =>
      destruct (onFulfilled_ok loc ty base pt dn rej markup w0 Hwrap) as [He Hn]
  end.
  eexists. rewrite He, Hn. autorewrite with world.
  split; [|split; [|reflexivity]].
  - apply replaceText_absent. rewrite trim_pastePlaceText. apply Hgone.
  - reflexivity.
Qed.

Lemma placeholder_deleted_during_send_witness :
  exists command,
    editor (upload
              {| sendOutcome := None; mkdirOutcome := None; writeOutcome := None;
                 adapterBasePath := None;
                 whileSuspended := fun io ed =>
                   match io with
                   | S3Send _ => {| doc := "rewritten"; selFrom := 0; selTo := 0 |}
                   | _ => ed
                   end |}
              bucketSettings None (pngFile "a.png") "image" helloWorld)
      = {| doc := "rewritten"; selFrom := 0; selTo := 0 |} /\
    Key command = "img/d41d8cd98f00b204e9800998ecf8427e.png".
Proof.
  destruct (placeholder_deleted_during_send
              {| sendOutcome := None; mkdirOutcome := None; writeOutcome := None;
                 adapterBasePath := None;
                 whileSuspended := fun io ed =>
                   match io with
                   | S3Send _ => {| doc := "rewritten"; selFrom := 0; selTo := 0 |}
                   | _ => ed
                   end |}
              bucketSettings None (pngFile "a.png") "image"
              "![image](https://cdn.example.com/img/d41d8cd98f00b204e9800998ecf8427e.png)"
              helloWorld)
    as [command [He [Hk _]]].
  - vm_compute. reflexivity.
  - discriminate.
  - reflexivity.
  - vm_compute. reflexivity.
  - intros command ed. vm_compute. reflexivity.
  - exists command. split; [exact He | rewrite Hk; vm_compute; reflexivity].
Defined.

(** X20: a note can switch local upload on but not off: with local upload
    on in the global settings every upload is local, whatever the
    frontmatter says, and nothing is ever sent to the bucket. *)
Theorem global_local_upload_never_sends (o : Outcomes) (settings : Settings.t)
    (fm : Frontmatter) (file : File.t) (type : string) (w : World) :
  Settings.localUpload settings = true ->
  Js.truthy (localUpload settings fm) = true /\
  exists delta,
    log (upload o settings fm file type w) = log w ++ delta /\
    List.existsb isBucketOperation delta = false.
Proof.
  intros Hg.
  assert (Js.truthy (localUpload settings fm) = true) as Hl.
  { unfold localUpload, Js.orElse.
    destruct (Js.truthy (fmLocalUpload fm)) eqn:E; [exact E|]. rewrite Hg. reflexivity. }
  split; [exact Hl|].
  unfold upload. rewrite Hl. cbn [negb].
  unfold uploadLocal. destruct (mkdirOutcome o) as [message|].
  - eexists. split; [run_actions; flatten_log; reflexivity | reflexivity].
  - destruct (writeOutcome o) as [message|].
    + eexists. split; [run_actions; flatten_log; reflexivity | reflexivity].
    + unfold onFulfilled. destruct (wrapFileDependingOnType _ _ _).
      * eexists. split; [run_actions; flatten_log; reflexivity | reflexivity].
      * eexists. split; [run_actions; flatten_log; reflexivity | reflexivity].
Qed.

Lemma global_local_upload_never_sends_witness :
  Js.truthy (localUpload localSettings (Some {[ "localUpload" := Js.Bool false ]}))
    = true /\
  exists delta,
    log (upload allFine localSettings (Some {[ "localUpload" := Js.Bool false ]})
           (pngFile "a.png") "image" helloWorld) = log helloWorld ++ delta /\
    List.existsb isBucketOperation delta = false.
Proof.
  apply (global_local_upload_never_sends allFine localSettings
           (Some {[ "localUpload" := Js.Bool false ]}) (pngFile "a.png") "image"
           helloWorld).
  reflexivity.
Defined.

(** ** The client without a region *)

(** X21: with an empty region, which is the default, a remote upload gets
    no further than the constructor of the client: the rejection is not
    handled, nothing is sent, no notice is shown, and the placeholder that
    was inserted stays in the note. *)
Theorem empty_region_is_unhandled (o : Outcomes) (settings : Settings.t)
    (fm : Frontmatter) (file : File.t) (type : string) (w : World) :
  idle o ->
  Js.truthy (localUpload settings fm) = false ->
  Settings.region settings = "" ->
  (exists message,
      log (upload o settings fm file type w) =
        log w ++ [ PreventDefault;
                   Suspend (ReadArrayBuffer (File.name file));
                   ReplaceSelection (pastePlaceText (newFileName file));
                   Unhandled message ]) /\
  notices (upload o settings fm file type w) = notices w /\
  editor (upload o settings fm file type w)
    = replaceSelection (editor w) (pastePlaceText (newFileName file)) /\
  includes (doc (editor (upload o settings fm file type w)))
           (placeholder (newFileName file)) = true.
Proof.
  intros Hidle Hl Hr. unfold upload. rewrite Hl. cbn [negb].
  unfold uploadRemote. rewrite (newS3Client_no_region _ Hr).
  unfold seqA. cbv beta zeta. autorewrite with world. rewrite !Hidle.
  split; [eexists; flatten_log; reflexivity|].
  split; [reflexivity|]. split; [reflexivity|].
  apply includes_spec. rewrite replaceSelection_doc, pastePlaceText_placeholder.
  rewrite !app_assoc. eexists. eexists. reflexivity.
Qed.

Lemma empty_region_is_unhandled_witness :
  notices (upload allFine DEFAULT_SETTINGS None (pngFile "a.png") "image" helloWorld)
    = [] /\
  doc (editor (upload allFine DEFAULT_SETTINGS None (pngFile "a.png") "image"
                 helloWorld))
    = "Hello" +:+ placeholder "d41d8cd98f00b204e9800998ecf8427e.png" +:+ nl.
Proof.
  destruct (empty_region_is_unhandled allFine DEFAULT_SETTINGS None (pngFile "a.png")
              "image" helloWorld) as [_ [Hn [He _]]].
  - intros io ed. reflexivity.
  - reflexivity.
  - reflexivity.
  - split; [exact Hn|]. rewrite He. vm_compute. reflexivity.
Defined.
